(** * validate_server_config.py: the server.json validator and its reporter

    A shallow embedding of [validate_server_json] and [main] from
    [validate_server_config.py].  The document is whatever [json.load]
    returns, so the embedding starts with the Python values a JSON
    decoder can build and the handful of Python operations the script
    applies to them, each with the exception it raises on a value of
    the wrong type.  The two diagnostic lists the validator appends to
    are threaded explicitly; an exception discards them, as it does in
    Python where they are locals of the call.

    Text is Python's: a [str] is a sequence of code points, a lone
    surrogate included, since a JSON escape can produce one.  Two things
    the script does with text depend on the interpreter it runs on.
    [repr] escapes the characters from 128 up that the interpreter's
    Unicode tables do not count as printable; that table,
    [str.isprintable] on one character, is a variable of the
    development.  [print] encodes the line for the output stream; the
    stream is taken to be UTF-8 with the strict error handler, the
    interpreter's choice in a UTF-8 locale, so a line is written unless
    it holds a surrogate, and then [UnicodeEncodeError] is raised. *)

From Stdlib Require Import String Ascii List ZArith NArith Bool Arith Lia.
From Stdlib Require Import DecimalString DecimalNat.
From Stdlib Require Strings.Byte.
Import ListNotations.

(** * The program

    ** Text *)

(** A character is its code point, a [str] the list of its
    characters. *)
Definition char : Type := N.

Definition pystr : Type := list char.

(** Literals: ["abc"] is the [str] of the three characters; only ASCII
    text can be written this way. *)
Inductive literal : Type :=
| lit_nil
| lit_cons (c : N) (rest : literal).

Fixpoint literal_of_bytes (l : list Byte.byte) : option literal :=
  match l with
  | [] => Some lit_nil
  | b :: rest =>
      match literal_of_bytes rest with
      | Some r =>
          if N.ltb (Byte.to_N b) 128 then Some (lit_cons (Byte.to_N b) r) else None
      | None => None
      end
  end.

Fixpoint bytes_of_chars (s : literal) : option (list Byte.byte) :=
  match s with
  | lit_nil => Some []
  | lit_cons c rest =>
      match Byte.of_N c, bytes_of_chars rest with
      | Some b, Some l => if N.ltb c 128 then Some (b :: l) else None
      | _, _ => None
      end
  end.

(** The empty list is shown as a list. *)
Definition bytes_of_literal (s : literal) : option (list Byte.byte) :=
  match s with
  | lit_nil => None
  | _ => bytes_of_chars s
  end.

Declare Scope pystr_scope.
Delimit Scope pystr_scope with pystr.

#[warnings="-via-type-remapping,-via-type-mismatch"]
String Notation pystr literal_of_bytes bytes_of_literal
  (via literal mapping [[nil] => lit_nil, [cons] => lit_cons]) : pystr_scope.

Open Scope pystr_scope.

(** The characters of a [string] of the Standard Library, one per
    [ascii]; used for decimal numerals only. *)
Definition of_string (s : string) : pystr :=
  map N_of_ascii (list_ascii_of_string s).

(** [s == t] on two strs. *)
Fixpoint str_eqb (s t : pystr) : bool :=
  match s, t with
  | [], [] => true
  | c :: s', d :: t' => N.eqb c d && str_eqb s' t'
  | _, _ => false
  end.

(** [s.startswith(p)] on two strs. *)
Fixpoint str_prefix (p s : pystr) : bool :=
  match p with
  | [] => true
  | c :: p' =>
      match s with
      | [] => false
      | d :: s' => N.eqb c d && str_prefix p' s'
      end
  end.

(** [needle in hay] on two strs: substring search. *)
Fixpoint str_contains (needle hay : pystr) : bool :=
  str_prefix needle hay
  || match hay with
     | [] => false
     | _ :: rest => str_contains needle rest
     end.

(** [sep.join(l)] *)
Fixpoint join (sep : pystr) (l : list pystr) : pystr :=
  match l with
  | [] => []
  | [s] => s
  | s :: rest => s ++ sep ++ join sep rest
  end.

(** The code points U+D800 to U+DFFF. *)
Definition is_surrogate (c : char) : bool :=
  N.leb 55296 c && N.leb c 57343.

(** [s.encode('utf-8')] succeeds: no character of [s] is a
    surrogate. *)
Definition encodable (s : pystr) : bool :=
  forallb (fun c => negb (is_surrogate c)) s.

(** [str.isprintable] where every interpreter agrees: up to U+00FF the
    controls, U+00A0 and U+00AD are not printable, and no surrogate is.
    The other characters are counted printable here; the table is the
    one the statements are tried with on the sample documents, none of
    which holds such a character. *)
Definition latin1_printable (c : char) : bool :=
  negb (N.ltb c 32 || (N.leb 127 c && N.leb c 160) || N.eqb c 173 || is_surrogate c).

(** ** Python values and operations *)

Module Py.

(** The exceptions the operations below can raise. *)
Inductive exn : Type :=
| AttributeError
| TypeError
| KeyError
| UnicodeEncodeError.

Inductive result (A : Type) : Type :=
| Ok (a : A)
| Raise (e : exn).

Arguments Ok {A} a.
Arguments Raise {A} e.

Definition bind {A B : Type} (m : result A) (k : A -> result B) : result B :=
  match m with
  | Ok a => k a
  | Raise e => Raise e
  end.

Definition raises {A : Type} (m : result A) : bool :=
  match m with
  | Ok _ => false
  | Raise _ => true
  end.

(** What [json.load] returns.  An [int] is unbounded.  A [float] is
    kept as the two things the script can observe of it: whether it is
    non-zero (its truth value) and its [repr].  A [dict] is its items
    in insertion order; [lookup] reads the first binding of a key. *)
#[local] Unset Elimination Schemes.

Inductive json : Type :=
| JNull
| JBool (b : bool)
| JInt (z : Z)
| JFloat (nonzero : bool) (repr : pystr)
| JStr (s : pystr)
| JList (items : list json)
| JDict (entries : list (pystr * json)).

#[local] Set Elimination Schemes.

Fixpoint lookup (k : pystr) (kvs : list (pystr * json)) : option json :=
  match kvs with
  | [] => None
  | (k', v) :: rest => if str_eqb k k' then Some v else lookup k rest
  end.

(** [del d[k]], every binding of the key. *)
Fixpoint remove_key (k : pystr) (kvs : list (pystr * json)) : list (pystr * json) :=
  match kvs with
  | [] => []
  | (k', v) :: rest =>
      if str_eqb k k' then remove_key k rest else (k', v) :: remove_key k rest
  end.

(** [bool(v)] *)
Definition truthy (v : json) : bool :=
  match v with
  | JNull => false
  | JBool b => b
  | JInt z => negb (Z.eqb z 0)
  | JFloat nonzero _ => nonzero
  | JStr s => negb (Nat.eqb (List.length s) 0)
  | JList items => negb (Nat.eqb (List.length items) 0)
  | JDict entries => negb (Nat.eqb (List.length entries) 0)
  end.

(** [v == s] for a string literal [s]: only a [str] equals a [str]. *)
Definition eq_str (v : json) (s : pystr) : bool :=
  match v with
  | JStr t => str_eqb t s
  | _ => false
  end.

(** [v in [s1, s2, ...]] for a list of string literals. *)
Definition in_strs (v : json) (l : list pystr) : bool :=
  existsb (eq_str v) l.

(** [k in c] for a string [k]: key membership on a dict, substring
    search on a str, element membership on a list; the other values
    are not iterable. *)
Definition contains (k : pystr) (c : json) : result bool :=
  match c with
  | JDict entries =>
      Ok (match lookup k entries with Some _ => true | None => false end)
  | JStr s => Ok (str_contains k s)
  | JList items => Ok (existsb (fun x => eq_str x k) items)
  | _ => Raise TypeError
  end.

Definition not_contains (k : pystr) (c : json) : result bool :=
  bind (contains k c) (fun b => Ok (negb b)).

(** [c[k]] for a string [k]. *)
Definition getitem (c : json) (k : pystr) : result json :=
  match c with
  | JDict entries =>
      match lookup k entries with
      | Some v => Ok v
      | None => Raise KeyError
      end
  | _ => Raise TypeError
  end.

(** [c.get(k, default)]: only a dict has the method. *)
Definition get (c : json) (k : pystr) (default : json) : result json :=
  match c with
  | JDict entries =>
      Ok (match lookup k entries with Some v => v | None => default end)
  | _ => Raise AttributeError
  end.

(** [len(c)]: of a str, the number of its characters. *)
Definition len (c : json) : result nat :=
  match c with
  | JStr s => Ok (List.length s)
  | JList items => Ok (List.length items)
  | JDict entries => Ok (List.length entries)
  | _ => Raise TypeError
  end.

(** The values a [for] loop over [c] visits: the elements of a list,
    the characters of a str, each a str of length one, the keys of a
    dict. *)
Definition iter (c : json) : result (list json) :=
  match c with
  | JList items => Ok items
  | JStr s => Ok (map (fun ch => JStr [ch]) s)
  | JDict entries => Ok (map (fun kv => JStr (fst kv)) entries)
  | _ => Raise TypeError
  end.

(** [v.startswith(p)]: only a str has the method. *)
Definition startswith (v : json) (p : pystr) : result bool :=
  match v with
  | JStr s => Ok (str_prefix p s)
  | _ => Raise AttributeError
  end.

(** [isinstance(v, dict)] *)
Definition isinstance_dict (v : json) : bool :=
  match v with
  | JDict _ => true
  | _ => false
  end.

(** [v[:60]]: the first 60 characters of a str, the first 60 elements
    of a list.  The exception a dict raises for a slice key changed
    class between Python versions; it is recorded as [TypeError], the
    older one. *)
Definition slice60 (v : json) : result json :=
  match v with
  | JStr s => Ok (JStr (firstn 60 s))
  | JList items => Ok (JList (firstn 60 items))
  | _ => Raise TypeError
  end.

(** Decimal rendering, as an f-string does for an [int]. *)
Definition str_of_nat (n : nat) : pystr :=
  of_string (NilEmpty.string_of_uint (Nat.to_uint n)).

Definition str_of_Z (z : Z) : pystr :=
  of_string (NilEmpty.string_of_int (Z.to_int z)).

Definition hex_digit (n : N) : char :=
  nth (N.to_nat n) "0123456789abcdef" 48%N.

(** [n] in hexadecimal, on [width] digits. *)
Fixpoint hex (width : nat) (n : N) : pystr :=
  match width with
  | O => []
  | S w => hex w (N.div n 16) ++ [hex_digit (N.modulo n 16)]
  end.

Section Repr.

(** [str.isprintable] on one character, asked for characters from 128
    up only. *)
Variable isprintable : char -> bool.

(** [repr] of a str: single quotes unless the text has a single quote
    and no double quote; backslash, the chosen quote, tab, newline and
    carriage return are escaped with a backslash, the other control
    characters as [\xNN]; a character from 128 up is kept when it is
    printable and escaped as [\xNN], [\uNNNN] or [\UNNNNNNNN]
    otherwise. *)
Definition repr_char (quote c : char) : pystr :=
  if N.eqb c 92 then [92; 92]%N
  else if N.eqb c quote then [92%N; c]
  else if N.eqb c 9 then [92; 116]%N
  else if N.eqb c 10 then [92; 110]%N
  else if N.eqb c 13 then [92; 114]%N
  else if N.ltb c 32 || N.eqb c 127 then [92; 120]%N ++ hex 2 c
  else if N.ltb c 127 then [c]
  else if isprintable c then [c]
  else if N.leb c 255 then [92; 120]%N ++ hex 2 c
  else if N.leb c 65535 then [92; 117]%N ++ hex 4 c
  else [92; 85]%N ++ hex 8 c.

Definition repr_str (s : pystr) : pystr :=
  let quote :=
    if str_contains [39%N] s && negb (str_contains [34%N] s) then 34%N else 39%N in
  [quote] ++ flat_map (repr_char quote) s ++ [quote].

(** [repr(v)] *)
Fixpoint repr (v : json) : pystr :=
  match v with
  | JNull => "None"
  | JBool true => "True"
  | JBool false => "False"
  | JInt z => str_of_Z z
  | JFloat _ r => r
  | JStr s => repr_str s
  | JList items => "[" ++ join ", " (map repr items) ++ "]"
  | JDict entries =>
      "{"
      ++ join ", " (map (fun kv => repr_str (fst kv) ++ ": " ++ repr (snd kv)) entries)
      ++ "}"
  end.

(** [str(v)], what an f-string field renders. *)
Definition str (v : json) : pystr :=
  match v with
  | JStr s => s
  | _ => repr v
  end.

End Repr.

End Py.

Import Py.

Notation "x <- m ;; k" := (Py.bind m (fun x => k))
  (at level 61, m at next level, right associativity).

Ltac inv_ok :=
  repeat match goal with
  | H : Ok _ = Ok _ |- _ => injection H as H; subst
  | H : Raise _ = Ok _ |- _ => discriminate H
  | H : Ok _ = Raise _ |- _ => discriminate H
  | H : Some _ = Some _ |- _ => injection H as H; subst
  | H : Some _ = None |- _ => discriminate H
  | H : None = Some _ |- _ => discriminate H
  end.

Ltac one_message :=
  first [ apply Forall_nil | apply Forall_cons; [|apply Forall_nil] ].

(** ** The validator *)

Section Script.

(** [str.isprintable] of the interpreter the script runs on. *)
Variable isprintable : char -> bool.

Abbreviation str := (Py.str isprintable).

(** The two lists [validate_server_json] appends to. *)
Record diag : Type := Diag {
  errors : list pystr;
  warnings : list pystr
}.

(** [errors = []] and [warnings = []], lines 9-10. *)
Definition empty_diag : diag := {| errors := []; warnings := [] |}.

Definition error_append (m : pystr) (d : diag) : diag :=
  {| errors := errors d ++ [m]; warnings := warnings d |}.

Definition warning_append (m : pystr) (d : diag) : diag :=
  {| errors := errors d; warnings := warnings d ++ [m] |}.

(** [for x in l: body] *)
Fixpoint for_each {A : Type} (body : A -> diag -> result diag)
    (l : list A) (d : diag) : result diag :=
  match l with
  | [] => Ok d
  | x :: rest => d' <- body x d ;; for_each body rest d'
  end.

(** [for idx, x in enumerate(l): body], counting from [idx]. *)
Fixpoint for_enumerate (body : nat -> json -> diag -> result diag)
    (idx : nat) (l : list json) (d : diag) : result diag :=
  match l with
  | [] => Ok d
  | x :: rest => d' <- body idx x d ;; for_enumerate body (S idx) rest d'
  end.

(** [if key not in obj: errors.append(msg)] *)
Definition require_key (obj : json) (key msg : pystr) (d : diag) : result diag :=
  absent <- not_contains key obj ;;
  Ok (if absent then error_append msg d else d).

(** [if key not in obj: warnings.append(msg)] *)
Definition recommend_key (obj : json) (key msg : pystr) (d : diag) : result diag :=
  absent <- not_contains key obj ;;
  Ok (if absent then warning_append msg d else d).

Definition required_fields : list pystr := ["name"; "version"; "description"].

Definition missing_required (field : pystr) : pystr :=
  "Missing required field: " ++ field.

Definition empty_required (field : pystr) : pystr :=
  "Field '" ++ field ++ "' cannot be empty".

(** Lines 14-18, the body of the loop over [required_fields]. *)
Definition check_required (config : json) (field : pystr) (d : diag) : result diag :=
  absent <- not_contains field config ;;
  if absent then Ok (error_append (missing_required field) d)
  else
    v <- getitem config field ;;
    Ok (if negb (truthy v) then error_append (empty_required field) d else d).

Definition namespace_warning (name : pystr) : pystr :=
  "Name should use io.github.* or com.* namespace: " ++ name.

Definition slash_warning (name : pystr) : pystr :=
  "Name should include a slash separator (namespace/name): " ++ name.

(** Lines 21-26. *)
Definition check_name_format (config : json) (d : diag) : result diag :=
  present <- contains "name" config ;;
  if present then
    name <- getitem config "name" ;;
    io <- startswith name "io.github." ;;
    off_namespace <- (if negb io
                      then com <- startswith name "com." ;; Ok (negb com)
                      else Ok false) ;;
    let d := if off_namespace
             then warning_append (namespace_warning (str name)) d else d in
    no_slash <- not_contains "/" name ;;
    Ok (if no_slash then warning_append (slash_warning (str name)) d else d)
  else Ok d.

(** Lines 29-30: [config.get(key) and len(config[key]) > 0].  The
    value of [and] is its left operand when that is falsy. *)
Definition has_deployment (config : json) (key : pystr) : result json :=
  v <- get config key JNull ;;
  if truthy v then
    c <- getitem config key ;;
    n <- len c ;;
    Ok (JBool (Nat.ltb 0 n))
  else Ok v.

Definition no_deployment : pystr :=
  "Must have at least one package or remote deployment".

Definition package_types : list pystr := ["npm"; "pypi"; "mcpb"; "docker"; "nuget"].

Definition package_msg (idx : nat) (text : pystr) : pystr :=
  "Package " ++ str_of_nat idx ++ ": " ++ text.

Definition platform_msg (idx pidx : nat) (text : pystr) : pystr :=
  "Package " ++ str_of_nat idx ++ ", Platform " ++ str_of_nat pidx ++ ": " ++ text.

(** Lines 55-62, the body of the loop over a package's platforms. *)
Definition validate_platform (idx pidx : nat) (platform : json) (d : diag) : result diag :=
  d <- require_key platform "os" (platform_msg idx pidx "Missing 'os' field") d ;;
  d <- require_key platform "arch" (platform_msg idx pidx "Missing 'arch' field") d ;;
  d <- require_key platform "uri" (platform_msg idx pidx "Missing 'uri' field") d ;;
  require_key platform "sha256" (platform_msg idx pidx "Missing 'sha256' field") d.

(** Lines 46-62, the checks of an MCPB package. *)
Definition validate_mcpb (idx : nat) (package : json) (d : diag) : result diag :=
  d <- require_key package "uri" (package_msg idx "MCPB package missing 'uri' field") d ;;
  d <- require_key package "sha256" (package_msg idx "MCPB package missing 'sha256' field") d ;;
  no_platforms <- not_contains "platforms" package ;;
  unusable <- (if no_platforms then Ok true
               else p <- getitem package "platforms" ;; Ok (negb (truthy p))) ;;
  if unusable
  then Ok (error_append (package_msg idx "MCPB package missing 'platforms' array") d)
  else
    p <- getitem package "platforms" ;;
    platforms <- iter p ;;
    for_enumerate (validate_platform idx) 0 platforms d.

(** Lines 38-62, the body of the loop over [config['packages']]. *)
Definition validate_package (idx : nat) (package : json) (d : diag) : result diag :=
  pkg_type <- get package "type" JNull ;;
  let d :=
    if negb (truthy pkg_type)
    then error_append (package_msg idx "Missing 'type' field") d
    else if negb (in_strs pkg_type package_types)
    then warning_append (package_msg idx ("Unknown package type '" ++ str pkg_type ++ "'")) d
    else d in
  if eq_str pkg_type "mcpb" then validate_mcpb idx package d else Ok d.

Definition transports : list pystr := ["streamable-http"; "sse"].

Definition remote_msg (idx : nat) (text : pystr) : pystr :=
  "Remote " ++ str_of_nat idx ++ ": " ++ text.

(** Lines 67-72, the body of the loop over [config['remotes']]. *)
Definition validate_remote (idx : nat) (remote : json) (d : diag) : result diag :=
  d <- require_key remote "endpoint" (remote_msg idx "Missing 'endpoint' field") d ;;
  no_transport <- not_contains "transport" remote ;;
  if no_transport
  then Ok (error_append (remote_msg idx "Missing 'transport' field") d)
  else
    t <- getitem remote "transport" ;;
    if negb (in_strs t transports)
    then
      t' <- getitem remote "transport" ;;
      Ok (warning_append (remote_msg idx ("Unknown transport '" ++ str t' ++ "'")) d)
    else Ok d.

Definition recommended_fields : list pystr := ["license"; "homepage"; "repository"].

Definition missing_recommended (field : pystr) : pystr :=
  "Recommended field missing: " ++ field.

(** Lines 77-78, the body of the loop over [recommended_fields]. *)
Definition check_recommended (config : json) (field : pystr) (d : diag) : result diag :=
  recommend_key config field (missing_recommended field) d.

(** Lines 81-89. *)
Definition check_repository (config : json) (d : diag) : result diag :=
  present <- contains "repository" config ;;
  if present then
    repo <- getitem config "repository" ;;
    if negb (isinstance_dict repo)
    then Ok (error_append "Repository must be an object" d)
    else
      d <- recommend_key repo "type" "Repository missing 'type' field" d ;;
      recommend_key repo "url" "Repository missing 'url' field" d
  else Ok d.

(** [if has_key: for idx, x in enumerate(config[key]): body] *)
Definition validate_entries (has_key : json) (config : json) (key : pystr)
    (body : nat -> json -> diag -> result diag) (d : diag) : result diag :=
  if truthy has_key then
    c <- getitem config key ;;
    entries <- iter c ;;
    for_enumerate body 0 entries d
  else Ok d.

(** [validate_server_json(config)], lines 7-91; the state after the
    last rule is [validate_diag], the returned pair its two lists. *)
Definition validate_diag (config : json) : result diag :=
  d <- for_each (check_required config) required_fields empty_diag ;;
  d <- check_name_format config d ;;
  has_packages <- has_deployment config "packages" ;;
  has_remotes <- has_deployment config "remotes" ;;
  let d := if negb (truthy has_packages) && negb (truthy has_remotes)
           then error_append no_deployment d else d in
  d <- validate_entries has_packages config "packages" validate_package d ;;
  d <- validate_entries has_remotes config "remotes" validate_remote d ;;
  d <- for_each (check_recommended config) recommended_fields d ;;
  check_repository config d.

Definition validate_server_json (config : json) : result (list pystr * list pystr) :=
  d <- validate_diag config ;;
  Ok (errors d, warnings d).

(** ** The reporter *)

(** What the loader hands to [main]: the two failures it catches, or
    the decoded document. *)
Inductive loaded : Type :=
| FileNotFound
| JSONDecodeError (e : pystr)
| Loaded (config : json).

(** How the process ends: [sys.exit(code)], or an exception nobody
    catches, which the interpreter turns into a traceback and exit
    status 1. *)
Inductive status : Type :=
| Exit (code : Z)
| Uncaught (e : exn).

Definition status_code (s : status) : Z :=
  match s with
  | Exit code => code
  | Uncaught _ => 1%Z
  end.

(** A run of the script: the [print] calls made, oldest first, and how
    it ended. *)
Record run : Type := Run {
  stdout : list pystr;
  outcome : status
}.

Definition exit_status (r : run) : Z := status_code (outcome r).

(** Statements of [main]: they print, and either go on with a value
    or end the process. *)
Definition io (A : Type) : Type := list pystr -> list pystr * (A + status).

Definition io_ret {A : Type} (a : A) : io A := fun out => (out, inl a).

Definition io_bind {A B : Type} (m : io A) (k : A -> io B) : io B :=
  fun out =>
    match m out with
    | (out', inl a) => k a out'
    | (out', inr s) => (out', inr s)
    end.

Notation "x <~ m ;; k" := (io_bind m (fun x => k))
  (at level 61, m at next level, right associativity).

(** [print(line)]: the line is written when it can be encoded; when
    it cannot, nothing of it is written and the exception ends the
    run, what was printed before staying printed. *)
Definition print (line : pystr) : io unit :=
  fun out =>
    if encodable line then (out ++ [line], inl tt)
    else (out, inr (Uncaught UnicodeEncodeError)).

Definition sys_exit {A : Type} (code : Z) : io A := fun out => (out, inr (Exit code)).

(** An expression of [main] that may raise. *)
Definition eval {A : Type} (r : result A) : io A :=
  fun out =>
    match r with
    | Ok a => (out, inl a)
    | Raise e => (out, inr (Uncaught e))
    end.

Definition when (b : bool) (m : io unit) : io unit :=
  if b then m else io_ret tt.

Fixpoint io_for {A : Type} (body : A -> io unit) (l : list A) : io unit :=
  match l with
  | [] => io_ret tt
  | x :: rest => _ <~ body x ;; io_for body rest
  end.

Definition nl : pystr := [10%N].

(** The markers of the script's messages, character for character as
    the interpreter reads them from the source file. *)
Definition mark_cross : pystr := [8218; 249; 229]%N.
Definition mark_warn : pystr := [8218; 246; 8224; 212; 8719; 232]%N.
Definition mark_check : pystr := [8218; 250; 214]%N.
Definition mark_bullet : pystr := [8218; 196; 162]%N.
Definition mark_summary : pystr := [63743; 252; 236; 227]%N.
Definition mark_platform : pystr := [63743; 252; 241; 8226; 212; 8719; 232]%N.

Definition is_empty {A : Type} (l : list A) : bool :=
  match l with
  | [] => true
  | _ => false
  end.

Definition print_bullet (m : pystr) : io unit :=
  print ("  " ++ mark_bullet ++ " " ++ m).

(** Lines 111-121. *)
Definition display_results (errs warns : list pystr) : io unit :=
  _ <~ when (negb (is_empty errs))
         (_ <~ print (mark_cross ++ " ERRORS:") ;;
          _ <~ io_for print_bullet errs ;;
          print []) ;;
  when (negb (is_empty warns))
    (_ <~ print (mark_warn ++ "  WARNINGS:") ;;
     _ <~ io_for print_bullet warns ;;
     print []).

(** Lines 123-129. *)
Definition display_verdict (errs warns : list pystr) : io unit :=
  if is_empty errs && is_empty warns
  then print (mark_check ++ " server.json looks good!")
  else if is_empty errs
  then print (mark_check ++ " server.json is valid (with warnings above)")
  else
    _ <~ print (mark_cross ++ " server.json has validation errors") ;;
    sys_exit 1%Z.

Definition summary_header : pystr := nl ++ mark_summary ++ " Configuration Summary:".

(** Lines 132-139. *)
Definition display_summary (config : json) : io unit :=
  _ <~ print summary_header ;;
  name <~ eval (get config "name" JNull) ;;
  _ <~ print ("  Name: " ++ str name) ;;
  version <~ eval (get config "version" JNull) ;;
  _ <~ print ("  Version: " ++ str version) ;;
  description <~ eval (get config "description" (JStr [])) ;;
  cut <~ eval (slice60 description) ;;
  _ <~ print ("  Description: " ++ str cut ++ "...") ;;
  license <~ eval (get config "license" (JStr "Not specified")) ;;
  _ <~ print ("  License: " ++ str license) ;;
  homepage <~ eval (get config "homepage" (JStr "Not specified")) ;;
  _ <~ print ("  Homepage: " ++ str homepage) ;;
  packages <~ eval (get config "packages" (JList [])) ;;
  n <~ eval (len packages) ;;
  _ <~ print ("  Packages: " ++ str_of_nat n) ;;
  remotes <~ eval (get config "remotes" (JList [])) ;;
  n <~ eval (len remotes) ;;
  print ("  Remotes: " ++ str_of_nat n).

(** Lines 147-149. *)
Definition display_platform (platform : json) : io unit :=
  os_name <~ eval (get platform "os" (JStr "unknown")) ;;
  arch <~ eval (get platform "arch" (JStr "unknown")) ;;
  print ("    " ++ mark_bullet ++ " " ++ str os_name ++ "/" ++ str arch).

(** Lines 144-149. *)
Definition display_package (pkg : json) : io unit :=
  pkg_type <~ eval (get pkg "type" JNull) ;;
  shown <~ (if eq_str pkg_type "mcpb"
            then p <~ eval (get pkg "platforms" JNull) ;; io_ret (truthy p)
            else io_ret false) ;;
  when shown
    (p <~ eval (getitem pkg "platforms") ;;
     n <~ eval (len p) ;;
     _ <~ print (nl ++ "  " ++ mark_platform ++ "  Platform Support ("
                  ++ str_of_nat n ++ " platforms):") ;;
     p <~ eval (getitem pkg "platforms") ;;
     platforms <~ eval (iter p) ;;
     io_for display_platform platforms).

(** Lines 142-149. *)
Definition display_platforms (config : json) : io unit :=
  p <~ eval (get config "packages" JNull) ;;
  when (truthy p)
    (p <~ eval (get config "packages" (JList [])) ;;
     pkgs <~ eval (iter p) ;;
     io_for display_package pkgs).

(** Lines 105-151, [main] once the document is loaded; its value is
    what [main] returns. *)
Definition report (config : json) : io Z :=
  _ <~ print ("Validating server.json..." ++ nl) ;;
  r <~ eval (validate_server_json config) ;;
  let (errs, warns) := r in
  _ <~ display_results errs warns ;;
  _ <~ display_verdict errs warns ;;
  _ <~ display_summary config ;;
  _ <~ display_platforms config ;;
  io_ret 0%Z.

(** [main()], lines 93-151. *)
Definition main_body (l : loaded) : io Z :=
  match l with
  | FileNotFound =>
      _ <~ print (mark_cross ++ " Error: server.json not found") ;;
      sys_exit 1%Z
  | JSONDecodeError e =>
      _ <~ print (mark_cross ++ " Error: Invalid JSON in server.json: " ++ e) ;;
      sys_exit 1%Z
  | Loaded config => report config
  end.

(** [sys.exit(main())], the whole script. *)
Definition main (l : loaded) : run :=
  match main_body l [] with
  | (out, inl code) => {| stdout := out; outcome := Exit code |}
  | (out, inr s) => {| stdout := out; outcome := s |}
  end.

(** ** Vocabulary of the statements *)

(** *** What a rule appends *)

(** [d] with the lists of [c] appended. *)
Definition extend (d c : diag) : diag :=
  {| errors := errors d ++ errors c; warnings := warnings d ++ warnings c |}.

Definition extend_all (l : list diag) : diag := fold_right extend empty_diag l.

(** A rule that only appends, and appends the same whatever the lists
    hold already. *)
Definition framed (f : diag -> result diag) : Prop :=
  forall d, f d = (c <- f empty_diag ;; Ok (extend d c)).

(** Every message of [d] satisfies [P]; a rule that keeps it so. *)
Definition all_lines (P : pystr -> Prop) (d : diag) : Prop :=
  Forall P (errors d) /\ Forall P (warnings d).

Definition keeps (P : pystr -> Prop) (f : diag -> result diag) : Prop :=
  forall d d', all_lines P d -> f d = Ok d' -> all_lines P d'.

(** What each rule appends for a mapping [kvs], read off the rule. *)
Definition required_error (kvs : list (pystr * json)) (field : pystr) : list pystr :=
  match lookup field kvs with
  | None => [missing_required field]
  | Some v => if truthy v then [] else [empty_required field]
  end.

Definition name_warnings (name : pystr) : list pystr :=
  (if negb (str_prefix "io.github." name) && negb (str_prefix "com." name)
   then [namespace_warning name] else [])
  ++ (if negb (str_contains "/" name) then [slash_warning name] else []).

Definition deployment_rule (has_packages has_remotes : json) : diag :=
  if negb (truthy has_packages) && negb (truthy has_remotes)
  then error_append no_deployment empty_diag else empty_diag.

Definition recommended_warning (kvs : list (pystr * json)) (field : pystr) :
    list pystr :=
  match lookup field kvs with
  | None => [missing_recommended field]
  | Some _ => []
  end.

Definition repository_diag (kvs : list (pystr * json)) : diag :=
  match lookup "repository" kvs with
  | None => empty_diag
  | Some (JDict repo) =>
      {| errors := [];
         warnings :=
           (match lookup "type" repo with
            | None => ["Repository missing 'type' field"] | Some _ => [] end)
           ++ (match lookup "url" repo with
               | None => ["Repository missing 'url' field"] | Some _ => [] end) |}
  | Some _ => {| errors := ["Repository must be an object"]; warnings := [] |}
  end.

(** What the claim about a required field says of an error list [l]:
    the missing message is in it exactly when the key is absent, the
    empty message exactly when the key is bound to a falsy value, and
    never both. *)
Definition reports_required (kvs : list (pystr * json)) (field : pystr)
    (l : list pystr) : Prop :=
  (In (missing_required field) l <-> lookup field kvs = None)
  /\ (In (empty_required field) l
      <-> exists v, lookup field kvs = Some v /\ truthy v = false)
  /\ ~ (In (missing_required field) l /\ In (empty_required field) l).

(** The pieces of the two lists returned for a mapping, in the order
    the rules run. *)
Inductive anatomy (kvs : list (pystr * json)) : list pystr -> list pystr -> Prop :=
| Anatomy (name_part : list pystr) (has_packages has_remotes : json)
    (packages_part remotes_part : diag)
    (name_rule :
       check_name_format (JDict kvs) empty_diag
       = Ok {| errors := []; warnings := name_part |})
    (packages_flag : has_deployment (JDict kvs) "packages" = Ok has_packages)
    (remotes_flag : has_deployment (JDict kvs) "remotes" = Ok has_remotes)
    (packages_rule :
       validate_entries has_packages (JDict kvs) "packages" validate_package
         empty_diag = Ok packages_part)
    (remotes_rule :
       validate_entries has_remotes (JDict kvs) "remotes" validate_remote
         empty_diag = Ok remotes_part) :
    anatomy kvs
      (flat_map (required_error kvs) required_fields
       ++ errors (deployment_rule has_packages has_remotes)
       ++ errors packages_part
       ++ errors remotes_part
       ++ errors (repository_diag kvs))
      (name_part
       ++ warnings packages_part
       ++ warnings remotes_part
       ++ flat_map (recommended_warning kvs) recommended_fields
       ++ warnings (repository_diag kvs)).

(** *** The messages of each rule *)

Inductive required_line : pystr -> Prop :=
| required_line_missing (field : pystr) : required_line (missing_required field)
| required_line_empty (field : pystr) : required_line (empty_required field).

Inductive name_line : pystr -> Prop :=
| name_line_namespace (name : pystr) : name_line (namespace_warning name)
| name_line_slash (name : pystr) : name_line (slash_warning name).

Inductive deployment_line : pystr -> Prop :=
| deployment_line_msg : deployment_line no_deployment.

Inductive package_line (idx : nat) : pystr -> Prop :=
| package_line_msg (text : pystr) :
    package_line idx (package_msg idx text)
| package_line_platform (pidx : nat) (text : pystr) :
    package_line idx (platform_msg idx pidx text).

Inductive remote_line (idx : nat) : pystr -> Prop :=
| remote_line_msg (text : pystr) : remote_line idx (remote_msg idx text).

Inductive any_package_line (m : pystr) : Prop :=
| any_package (idx : nat) (L : package_line idx m).

Inductive any_remote_line (m : pystr) : Prop :=
| any_remote (idx : nat) (L : remote_line idx m).

Inductive recommended_line : pystr -> Prop :=
| recommended_line_msg (field : pystr) : recommended_line (missing_recommended field).

Inductive repository_line : pystr -> Prop :=
| repository_line_object : repository_line "Repository must be an object"
| repository_line_type : repository_line "Repository missing 'type' field"
| repository_line_url : repository_line "Repository missing 'url' field".

(** The messages of a rule, picked out of a list by how they start: a
    message of the package loop about entry [idx] starts with
    ["Package idx:"] or, for one of its platforms, ["Package idx,"];
    one of the remote loop with ["Remote idx:"]. *)
Definition is_required_line (m : pystr) : bool :=
  str_prefix "Missing required field: " m || str_prefix "Field '" m.

Definition is_name_line (m : pystr) : bool := str_prefix "Name should " m.

Definition refers_package (idx : nat) (m : pystr) : bool :=
  str_prefix ("Package " ++ str_of_nat idx ++ ":") m
  || str_prefix ("Package " ++ str_of_nat idx ++ ",") m.

Definition refers_remote (idx : nat) (m : pystr) : bool :=
  str_prefix ("Remote " ++ str_of_nat idx ++ ":") m.

Definition is_digit (c : char) : bool := N.leb 48 c && N.leb c 57.

Definition all_digits (s : pystr) : bool := forallb is_digit s.

(** *** The lines of the reporter *)

Definition banner : pystr := "Validating server.json..." ++ nl.








(** What [print] writes of the lines it is called on in turn: those
    before the first that cannot be encoded. *)
Fixpoint printed (lines : list pystr) : list pystr :=
  match lines with
  | [] => []
  | line :: rest => if encodable line then line :: printed rest else []
  end.





(** *** The documents of the data model *)

(** ['name'], when present, is a str; ['packages'], when present, is a
    list of mappings whose ['platforms'], when present, is a list of
    mappings; ['remotes'], when present, is a list of mappings. *)
Definition is_str (v : json) : bool :=
  match v with
  | JStr _ => true
  | _ => false
  end.

Definition list_of (p : json -> bool) (v : json) : bool :=
  match v with
  | JList items => forallb p items
  | _ => false
  end.

Definition absent_or (p : json -> bool) (o : option json) : bool :=
  match o with
  | Some v => p v
  | None => true
  end.

Definition typed_package (v : json) : bool :=
  match v with
  | JDict entries => absent_or (list_of isinstance_dict) (lookup "platforms" entries)
  | _ => false
  end.

Definition typed_document (kvs : list (pystr * json)) : bool :=
  absent_or is_str (lookup "name" kvs)
  && absent_or (list_of typed_package) (lookup "packages" kvs)
  && absent_or (list_of isinstance_dict) (lookup "remotes" kvs).

(** *** Documents the statements are tried on *)

(** The document of the end-to-end scenario of the specification. *)
Definition doc_npm_tool : list (pystr * json) :=
  [("name", JStr "io.github.acme/tool"); ("version", JStr "1.0.0");
   ("description", JStr "A tool");
   ("packages", JList [JDict [("type", JStr "npm")]])].

(** The same, named "acme-tool". *)
Definition doc_acme_tool : list (pystr * json) :=
  [("name", JStr "acme-tool"); ("version", JStr "1.0.0");
   ("description", JStr "A tool");
   ("packages", JList [JDict [("type", JStr "npm")]])].

(** The same with ['name'] bound to [null]. *)
Definition doc_null_name : list (pystr * json) :=
  [("name", JNull); ("version", JStr "1.0.0");
   ("description", JStr "A tool");
   ("packages", JList [JDict [("type", JStr "npm")]])].

(** ['name'] is the number 5, ['packages'] and ['remotes'] are empty
    sequences. *)
Definition doc_numeric_name : list (pystr * json) :=
  [("name", JInt 5); ("version", JStr "1.0.0");
   ("description", JStr "A tool");
   ("packages", JList []); ("remotes", JList [])].

(** The ['name'] is the empty string and there is no ['description']. *)
Definition doc_empty_name : list (pystr * json) :=
  [("name", JStr []); ("version", JStr "1.0.0");
   ("packages", JList [JDict [("type", JStr "npm")]])].

(** The ['description'] is the number 5. *)
Definition doc_numeric_description : list (pystr * json) :=
  [("name", JStr "io.github.acme/tool"); ("version", JStr "1.0.0");
   ("description", JInt 5);
   ("packages", JList [JDict [("type", JStr "npm")]])].

(** The only package is an MCPB package with a ['uri'], no ['sha256']
    and an empty ['platforms']. *)
Definition doc_mcpb_bare : list (pystr * json) :=
  [("name", JStr "io.github.acme/tool"); ("version", JStr "1.0.0");
   ("description", JStr "A tool");
   ("packages",
    JList [JDict [("type", JStr "mcpb"); ("uri", JStr "https://acme.dev/tool.mcpb");
                  ("platforms", JList [])]])].

(** The only deployment is a remote with an ['endpoint'] and the
    transport "graphql". *)
Definition doc_graphql : list (pystr * json) :=
  [("name", JStr "io.github.acme/tool"); ("version", JStr "1.0.0");
   ("description", JStr "A tool");
   ("remotes",
    JList [JDict [("endpoint", JStr "https://acme.dev/mcp");
                  ("transport", JStr "graphql")]])].

(** A remote whose transport is [null] and a package whose type is the
    empty string. *)
Definition doc_falsy_tags : list (pystr * json) :=
  [("name", JStr "io.github.acme/tool"); ("version", JStr "1.0.0");
   ("description", JStr "A tool");
   ("packages", JList [JDict [("type", JStr [])]]);
   ("remotes",
    JList [JDict [("endpoint", JStr "https://acme.dev/mcp"); ("transport", JNull)]])].

(** ['packages'] is [0] and there is one remote. *)
Definition doc_zero_packages : list (pystr * json) :=
  [("name", JStr "io.github.acme/tool"); ("version", JStr "1.0.0");
   ("description", JStr "A tool"); ("packages", JInt 0);
   ("remotes",
    JList [JDict [("endpoint", JStr "https://acme.dev/mcp");
                  ("transport", JStr "sse")]])].

(** *** What the entry rules append, read off the rules *)

Definition is_recommended_line (m : pystr) : bool :=
  str_prefix "Recommended field missing: " m.

Definition is_repository_line (m : pystr) : bool := str_prefix "Repository m" m.

(** [msg] when [key] is not a key of the mapping. *)
Definition absent_msg (entries : list (pystr * json)) (key msg : pystr) : list pystr :=
  match lookup key entries with
  | None => [msg]
  | Some _ => []
  end.

(** [m.get(key)] of a mapping. *)
Definition get_or_null (entries : list (pystr * json)) (key : pystr) : json :=
  match lookup key entries with
  | Some v => v
  | None => JNull
  end.

Definition remote_errors (idx : nat) (entries : list (pystr * json)) : list pystr :=
  absent_msg entries "endpoint" (remote_msg idx "Missing 'endpoint' field")
  ++ absent_msg entries "transport" (remote_msg idx "Missing 'transport' field").

Definition remote_warnings (idx : nat) (entries : list (pystr * json)) : list pystr :=
  match lookup "transport" entries with
  | Some t =>
      if in_strs t transports then []
      else [remote_msg idx ("Unknown transport '" ++ str t ++ "'")]
  | None => []
  end.

Definition type_errors (idx : nat) (t : json) : list pystr :=
  if truthy t then [] else [package_msg idx "Missing 'type' field"].

Definition type_warnings (idx : nat) (t : json) : list pystr :=
  if truthy t && negb (in_strs t package_types)
  then [package_msg idx ("Unknown package type '" ++ str t ++ "'")]
  else [].

Definition platform_errors (idx pidx : nat) (platform : list (pystr * json)) :
    list pystr :=
  absent_msg platform "os" (platform_msg idx pidx "Missing 'os' field")
  ++ absent_msg platform "arch" (platform_msg idx pidx "Missing 'arch' field")
  ++ absent_msg platform "uri" (platform_msg idx pidx "Missing 'uri' field")
  ++ absent_msg platform "sha256" (platform_msg idx pidx "Missing 'sha256' field").

(** [enumerate(l)], counting from [i]. *)
Fixpoint enumerate_from {A : Type} (i : nat) (l : list A) : list (nat * A) :=
  match l with
  | [] => []
  | x :: rest => (i, x) :: enumerate_from (S i) rest
  end.

Definition platforms_errors (idx : nat) (platforms : list json) : list pystr :=
  flat_map (fun px => match snd px with
                      | JDict platform => platform_errors idx (fst px) platform
                      | _ => []
                      end)
    (enumerate_from 0 platforms).

Definition mcpb_errors (idx : nat) (entries : list (pystr * json)) : list pystr :=
  absent_msg entries "uri" (package_msg idx "MCPB package missing 'uri' field")
  ++ absent_msg entries "sha256" (package_msg idx "MCPB package missing 'sha256' field")
  ++ match lookup "platforms" entries with
     | Some (JList (p :: ps)) => platforms_errors idx (p :: ps)
     | _ => [package_msg idx "MCPB package missing 'platforms' array"]
     end.

(** The top-level keys the validator looks at. *)
Definition validator_keys : list pystr :=
  ["name"; "version"; "description"; "packages"; "remotes";
   "license"; "homepage"; "repository"].

(** *** The platform-support block, read off [main] *)






(** *** The documents without errors *)

Definition has_key (entries : list (pystr * json)) (key : pystr) : bool :=
  match lookup key entries with
  | Some _ => true
  | None => false
  end.

Definition has_truthy (entries : list (pystr * json)) (key : pystr) : bool :=
  truthy (get_or_null entries key).

(** The entries of ['packages'] or ['remotes'] when it is a list. *)
Definition entries_of (kvs : list (pystr * json)) (key : pystr) : list json :=
  match lookup key kvs with
  | Some (JList l) => l
  | _ => []
  end.

Definition valid_platform (platform : json) : bool :=
  match platform with
  | JDict entries =>
      has_key entries "os" && has_key entries "arch"
      && has_key entries "uri" && has_key entries "sha256"
  | _ => false
  end.

Definition valid_package (pkg : json) : bool :=
  match pkg with
  | JDict entries =>
      has_truthy entries "type"
      && (if eq_str (get_or_null entries "type") "mcpb"
          then has_key entries "uri" && has_key entries "sha256"
               && match lookup "platforms" entries with
                  | Some (JList (p :: ps)) => forallb valid_platform (p :: ps)
                  | _ => false
                  end
          else true)
  | _ => false
  end.

Definition valid_remote (remote : json) : bool :=
  match remote with
  | JDict entries => has_key entries "endpoint" && has_key entries "transport"
  | _ => false
  end.

(** Every required field is bound to a truthy value; there is a package
    or a remote; every package has a truthy type and, when it is an
    MCPB package, a ['uri'], a ['sha256'] and at least one platform,
    each with ['os'], ['arch'], ['uri'] and ['sha256']; every remote
    has an ['endpoint'] and a ['transport']; ['repository'], when
    present, is a mapping. *)
Definition valid_document (kvs : list (pystr * json)) : bool :=
  forallb (has_truthy kvs) required_fields
  && (negb (is_empty (entries_of kvs "packages"))
      || negb (is_empty (entries_of kvs "remotes")))
  && forallb valid_package (entries_of kvs "packages")
  && forallb valid_remote (entries_of kvs "remotes")
  && absent_or isinstance_dict (lookup "repository" kvs).


(** *** The messages the validator can return

    The errors and the warnings a rule can append for the mapping
    [kvs]: the text is the rule's, the field one of the rule's list,
    the name the document's, an index that of an entry the loop
    visits, the type or transport a value the rule does not know. *)
Definition package_texts : list pystr :=
  ["Missing 'type' field"; "MCPB package missing 'uri' field";
   "MCPB package missing 'sha256' field"; "MCPB package missing 'platforms' array"].

Definition platform_texts : list pystr :=
  ["Missing 'os' field"; "Missing 'arch' field"; "Missing 'uri' field";
   "Missing 'sha256' field"].

Definition remote_texts : list pystr :=
  ["Missing 'endpoint' field"; "Missing 'transport' field"].

(** How many entries the loop over [config[key]] visits. *)
Definition entry_count (kvs : list (pystr * json)) (key : pystr) : nat :=
  match lookup key kvs with
  | Some v => match iter v with Ok l => List.length l | Raise _ => 0 end
  | None => 0
  end.

Inductive package_error (idx : nat) : pystr -> Prop :=
| package_error_msg (text : pystr) :
    In text package_texts -> package_error idx (package_msg idx text)
| package_error_platform (pidx : nat) (text : pystr) :
    In text platform_texts -> package_error idx (platform_msg idx pidx text).

Inductive package_warning (idx : nat) : pystr -> Prop :=
| package_warning_type (v : json) :
    truthy v = true -> in_strs v package_types = false ->
    package_warning idx (package_msg idx ("Unknown package type '" ++ str v ++ "'")).

Inductive remote_error (idx : nat) : pystr -> Prop :=
| remote_error_msg (text : pystr) :
    In text remote_texts -> remote_error idx (remote_msg idx text).

Inductive remote_warning (idx : nat) : pystr -> Prop :=
| remote_warning_transport (v : json) :
    in_strs v transports = false ->
    remote_warning idx (remote_msg idx ("Unknown transport '" ++ str v ++ "'")).

Inductive error_message (kvs : list (pystr * json)) : pystr -> Prop :=
| error_missing (field : pystr) :
    In field required_fields -> lookup field kvs = None ->
    error_message kvs (missing_required field)
| error_empty (field : pystr) (v : json) :
    In field required_fields -> lookup field kvs = Some v -> truthy v = false ->
    error_message kvs (empty_required field)
| error_deployment :
    has_truthy kvs "packages" = false -> has_truthy kvs "remotes" = false ->
    error_message kvs no_deployment
| error_package (idx : nat) (m : pystr) :
    idx < entry_count kvs "packages" -> package_error idx m -> error_message kvs m
| error_remote (idx : nat) (m : pystr) :
    idx < entry_count kvs "remotes" -> remote_error idx m -> error_message kvs m
| error_repository (v : json) :
    lookup "repository" kvs = Some v -> isinstance_dict v = false ->
    error_message kvs "Repository must be an object".

Inductive warning_message (kvs : list (pystr * json)) : pystr -> Prop :=
| warning_namespace (name : pystr) :
    lookup "name" kvs = Some (JStr name) -> warning_message kvs (namespace_warning name)
| warning_slash (name : pystr) :
    lookup "name" kvs = Some (JStr name) -> warning_message kvs (slash_warning name)
| warning_package (idx : nat) (m : pystr) :
    idx < entry_count kvs "packages" -> package_warning idx m -> warning_message kvs m
| warning_remote (idx : nat) (m : pystr) :
    idx < entry_count kvs "remotes" -> remote_warning idx m -> warning_message kvs m
| warning_recommended (field : pystr) :
    In field recommended_fields -> lookup field kvs = None ->
    warning_message kvs (missing_recommended field)
| warning_repository_type (repo : list (pystr * json)) :
    lookup "repository" kvs = Some (JDict repo) -> lookup "type" repo = None ->
    warning_message kvs "Repository missing 'type' field"
| warning_repository_url (repo : list (pystr * json)) :
    lookup "repository" kvs = Some (JDict repo) -> lookup "url" repo = None ->
    warning_message kvs "Repository missing 'url' field".

(** The errors of [d] satisfy [PE] and its warnings [PW]; a rule that
    keeps it so. *)
Definition sorted_lines (PE PW : pystr -> Prop) (d : diag) : Prop :=
  Forall PE (errors d) /\ Forall PW (warnings d).

Definition sorts (PE PW : pystr -> Prop) (f : diag -> result diag) : Prop :=
  forall d d', sorted_lines PE PW d -> f d = Ok d' -> sorted_lines PE PW d'.

(** *** More documents *)

(** An MCPB package for two platforms, the second without ['arch'] and
    ['sha256'], and a remote without ['endpoint'] over "sse". *)
Definition doc_two_platforms : list (pystr * json) :=
  [("name", JStr "io.github.acme/tool"); ("version", JStr "1.0.0");
   ("description", JStr "A tool"); ("license", JStr "MIT");
   ("homepage", JNull); ("repository", JStr "https://acme.dev/repo");
   ("packages",
    JList [JDict [("type", JStr "mcpb"); ("uri", JStr "https://acme.dev/tool.mcpb");
                  ("sha256", JStr "00ff");
                  ("platforms",
                   JList [JDict [("os", JStr "linux"); ("arch", JStr "x64");
                                 ("uri", JStr "u"); ("sha256", JStr "s")];
                          JDict [("os", JStr "darwin"); ("uri", JStr "u")]])];
           JDict [("type", JStr "cargo")]]);
   ("remotes", JList [JDict [("transport", JStr "sse")]])].

(** A document with nothing to report. *)
Definition doc_valid : list (pystr * json) :=
  [("name", JStr "io.github.acme/tool"); ("version", JStr "1.0.0");
   ("description", JStr "A tool"); ("license", JStr "MIT");
   ("homepage", JStr "https://acme.dev");
   ("repository", JDict [("type", JStr "git"); ("url", JStr "https://acme.dev/repo")]);
   ("packages",
    JList [JDict [("type", JStr "mcpb"); ("uri", JStr "https://acme.dev/tool.mcpb");
                  ("sha256", JStr "00ff");
                  ("platforms",
                   JList [JDict [("os", JStr "linux"); ("arch", JStr "x64");
                                 ("uri", JStr "u"); ("sha256", JStr "s")]])]])].

(** * Properties *)

(** ** Text *)

Lemma str_eqb_refl (s : pystr) : str_eqb s s = true.
Proof. induction s as [|c s IH]; [reflexivity|]. cbn. now rewrite N.eqb_refl. Qed.

Lemma str_eqb_eq (s t : pystr) : str_eqb s t = true <-> s = t.
Proof.
  split; [|intros ->; apply str_eqb_refl].
  revert t. induction s as [|c s IH]; intros [|d t]; try discriminate; [reflexivity|].
  cbn. intro E. apply andb_prop in E as [E1 E2].
  apply N.eqb_eq in E1. apply IH in E2. now subst.
Qed.

Lemma str_eqb_neq (s t : pystr) : str_eqb s t = false <-> s <> t.
Proof.
  rewrite <- str_eqb_eq. destruct (str_eqb s t); split; congruence.
Qed.

Lemma prefix_append (a s : pystr) : str_prefix a (a ++ s) = true.
Proof. induction a as [|c a IH]; [reflexivity|]. cbn. now rewrite N.eqb_refl. Qed.

Lemma prefix_app_same (a x y : pystr) :
  str_prefix (a ++ x) (a ++ y) = str_prefix x y.
Proof. induction a as [|c a IH]; [reflexivity|]. cbn. now rewrite N.eqb_refl. Qed.

Lemma append_inj_l (a x y : pystr) : a ++ x = a ++ y -> x = y.
Proof. apply app_inv_head. Qed.

Lemma of_string_inj (s t : string) : of_string s = of_string t -> s = t.
Proof.
  unfold of_string. intro E.
  apply (f_equal (map ascii_of_N)) in E. rewrite !map_map in E.
  rewrite !(map_ext _ (fun a => a) ascii_N_embedding), !map_id in E.
  apply (f_equal string_of_list_ascii) in E.
  now rewrite !string_of_list_ascii_of_string in E.
Qed.

Lemma str_of_nat_inj (i j : nat) : str_of_nat i = str_of_nat j -> i = j.
Proof.
  unfold str_of_nat. intro E. apply of_string_inj in E.
  apply (f_equal NilEmpty.uint_of_string) in E.
  rewrite !NilEmpty.usu in E. injection E as E.
  apply (f_equal Nat.of_uint) in E.
  now rewrite !DecimalNat.Unsigned.of_to in E.
Qed.

Lemma all_digits_uint (d : Decimal.uint) :
  all_digits (of_string (NilEmpty.string_of_uint d)) = true.
Proof. induction d; simpl; auto. Qed.

Lemma all_digits_str_of_nat (n : nat) : all_digits (str_of_nat n) = true.
Proof. apply all_digits_uint. Qed.





(** ** Appending is all a rule does

    Every rule of the validator only appends to the two lists and never
    reads them, so what it appends can be read off a run from the empty
    lists. *)

Lemma extend_empty_l (c : diag) : extend empty_diag c = c.
Proof. destruct c; reflexivity. Qed.

Lemma extend_empty_r (d : diag) : extend d empty_diag = d.
Proof. destruct d; unfold extend; simpl; now rewrite !app_nil_r. Qed.

Lemma extend_assoc (a b c : diag) : extend (extend a b) c = extend a (extend b c).
Proof. unfold extend; simpl; now rewrite !app_assoc. Qed.

Lemma error_append_extend (m : pystr) (d : diag) :
  error_append m d = extend d (error_append m empty_diag).
Proof. unfold extend, error_append; simpl; now rewrite app_nil_r. Qed.

Lemma warning_append_extend (m : pystr) (d : diag) :
  warning_append m d = extend d (warning_append m empty_diag).
Proof. unfold extend, warning_append; simpl; now rewrite app_nil_r. Qed.

Lemma framed_ok : framed (fun d => Ok d).
Proof. intro d; simpl; now rewrite extend_empty_r. Qed.

Lemma framed_error (m : pystr) : framed (fun d => Ok (error_append m d)).
Proof. intro d; simpl; now rewrite <- error_append_extend. Qed.

Lemma framed_warning (m : pystr) : framed (fun d => Ok (warning_append m d)).
Proof. intro d; simpl; now rewrite <- warning_append_extend. Qed.

Lemma framed_ext (f g : diag -> result diag) :
  (forall d, f d = g d) -> framed g -> framed f.
Proof. intros E G d; rewrite !E; apply G. Qed.

Lemma framed_seq (f g : diag -> result diag) :
  framed f -> framed g -> framed (fun d => d' <- f d ;; g d').
Proof.
  intros F G d. rewrite (F d).
  destruct (f empty_diag) as [c|e]; simpl; [|reflexivity].
  rewrite (G (extend d c)), (G c).
  destruct (g empty_diag) as [c'|e]; simpl; [|reflexivity].
  now rewrite extend_assoc.
Qed.

Lemma framed_let {A : Type} (m : result A) (k : A -> diag -> result diag) :
  (forall a, framed (k a)) -> framed (fun d => a <- m ;; k a d).
Proof.
  intros K d. destruct m as [a|e]; simpl; [apply K | reflexivity].
Qed.

Lemma framed_if (b : bool) (f g : diag -> result diag) :
  framed f -> framed g -> framed (fun d => if b then f d else g d).
Proof. destruct b; auto. Qed.

Lemma framed_pure_if (b : bool) (f g : diag -> diag) :
  framed (fun d => Ok (f d)) -> framed (fun d => Ok (g d)) ->
  framed (fun d => Ok (if b then f d else g d)).
Proof. destruct b; auto. Qed.

Lemma framed_for_each {A : Type} (body : A -> diag -> result diag) (l : list A) :
  (forall x, framed (body x)) -> framed (for_each body l).
Proof.
  intro B. induction l as [|x rest IH]; simpl.
  - apply framed_ok.
  - apply (framed_seq (body x) (for_each body rest)); auto.
Qed.

Lemma framed_for_enumerate (body : nat -> json -> diag -> result diag)
    (l : list json) :
  (forall i x, framed (body i x)) -> forall idx, framed (for_enumerate body idx l).
Proof.
  intro B. induction l as [|x rest IH]; intro idx; simpl.
  - apply framed_ok.
  - apply (framed_seq (body idx x) (for_enumerate body (S idx) rest)); auto.
Qed.

Lemma framed_require_key (obj : json) (key msg : pystr) :
  framed (require_key obj key msg).
Proof.
  unfold require_key. apply framed_let; intro absent.
  apply framed_pure_if; [apply framed_error | apply framed_ok].
Qed.

Lemma framed_recommend_key (obj : json) (key msg : pystr) :
  framed (recommend_key obj key msg).
Proof.
  unfold recommend_key. apply framed_let; intro absent.
  apply framed_pure_if; [apply framed_warning | apply framed_ok].
Qed.

Lemma framed_check_required (config : json) (field : pystr) :
  framed (check_required config field).
Proof.
  unfold check_required. apply framed_let; intros [|].
  - apply framed_error.
  - apply framed_let; intro v.
    apply framed_pure_if; [apply framed_error | apply framed_ok].
Qed.

Lemma framed_check_name_format (config : json) : framed (check_name_format config).
Proof.
  unfold check_name_format. apply framed_let; intros [|]; [|apply framed_ok].
  apply framed_let; intro name. apply framed_let; intro io.
  apply framed_let; intro off_namespace.
  apply (framed_seq
           (fun d => Ok (if off_namespace
                         then warning_append (namespace_warning (str name)) d else d))
           (fun d => no_slash <- not_contains "/" name ;;
                     Ok (if no_slash then warning_append (slash_warning (str name)) d
                         else d))).
  - apply framed_pure_if; [apply framed_warning | apply framed_ok].
  - apply framed_let; intro b.
    apply framed_pure_if; [apply framed_warning | apply framed_ok].
Qed.

Lemma framed_validate_platform (idx pidx : nat) (platform : json) :
  framed (validate_platform idx pidx platform).
Proof.
  unfold validate_platform.
  repeat (apply (framed_seq (require_key _ _ _)); [apply framed_require_key|]).
  apply framed_require_key.
Qed.

Lemma framed_validate_mcpb (idx : nat) (package : json) :
  framed (validate_mcpb idx package).
Proof.
  unfold validate_mcpb.
  repeat (apply (framed_seq (require_key _ _ _)); [apply framed_require_key|]).
  apply framed_let; intro no_platforms. apply framed_let; intros [|].
  - apply framed_error.
  - apply framed_let; intro p. apply framed_let; intro platforms.
    apply framed_for_enumerate; intros; apply framed_validate_platform.
Qed.

Lemma framed_validate_package (idx : nat) (package : json) :
  framed (validate_package idx package).
Proof.
  unfold validate_package. apply framed_let; intro pkg_type.
  apply (framed_seq
           (fun d => Ok (if negb (truthy pkg_type)
                         then error_append (package_msg idx "Missing 'type' field") d
                         else if negb (in_strs pkg_type package_types)
                         then warning_append
                                (package_msg idx
                                   ("Unknown package type '" ++ str pkg_type ++ "'")) d
                         else d))
           (fun d => if eq_str pkg_type "mcpb" then validate_mcpb idx package d
                     else Ok d)).
  - apply framed_pure_if; [apply framed_error|].
    apply framed_pure_if; [apply framed_warning | apply framed_ok].
  - apply framed_if; [apply framed_validate_mcpb | apply framed_ok].
Qed.

Lemma framed_validate_remote (idx : nat) (remote : json) :
  framed (validate_remote idx remote).
Proof.
  unfold validate_remote.
  apply (framed_seq (require_key _ _ _)); [apply framed_require_key|].
  apply framed_let; intros [|]; [apply framed_error|].
  apply framed_let; intro t.
  apply framed_if; [|apply framed_ok].
  apply framed_let; intro t'. apply framed_warning.
Qed.

Lemma framed_check_recommended (config : json) (field : pystr) :
  framed (check_recommended config field).
Proof. apply framed_recommend_key. Qed.

Lemma framed_check_repository (config : json) : framed (check_repository config).
Proof.
  unfold check_repository. apply framed_let; intros [|]; [|apply framed_ok].
  apply framed_let; intro repo. apply framed_if; [apply framed_error|].
  apply (framed_seq (recommend_key _ _ _)); apply framed_recommend_key.
Qed.

Lemma framed_validate_entries (has_key config : json) (key : pystr)
    (body : nat -> json -> diag -> result diag) :
  (forall i x, framed (body i x)) ->
  framed (validate_entries has_key config key body).
Proof.
  intro B. unfold validate_entries. apply framed_if; [|apply framed_ok].
  apply framed_let; intro c. apply framed_let; intro entries.
  now apply framed_for_enumerate.
Qed.

(** The validator is its rules run one by one from the empty lists,
    their outputs put end to end. *)

Lemma validate_diag_rules (config : json) :
  validate_diag config =
    (d1 <- for_each (check_required config) required_fields empty_diag ;;
     d2 <- check_name_format config empty_diag ;;
     hp <- has_deployment config "packages" ;;
     hr <- has_deployment config "remotes" ;;
     d4 <- validate_entries hp config "packages" validate_package empty_diag ;;
     d5 <- validate_entries hr config "remotes" validate_remote empty_diag ;;
     d6 <- for_each (check_recommended config) recommended_fields empty_diag ;;
     d7 <- check_repository config empty_diag ;;
     Ok (extend_all [d1; d2; deployment_rule hp hr; d4; d5; d6; d7])).
Proof.
  unfold validate_diag.
  destruct (for_each (check_required config) required_fields empty_diag)
    as [d1|e]; cbn [bind]; [|reflexivity].
  rewrite (framed_check_name_format config d1).
  destruct (check_name_format config empty_diag) as [d2|e]; cbn [bind]; [|reflexivity].
  destruct (has_deployment config "packages") as [hp|e]; cbn [bind]; [|reflexivity].
  destruct (has_deployment config "remotes") as [hr|e]; cbn [bind]; [|reflexivity].
  rewrite (framed_validate_entries hp config "packages" validate_package
             framed_validate_package).
  destruct (validate_entries hp config "packages" validate_package empty_diag)
    as [d4|e]; cbn [bind]; [|reflexivity].
  rewrite (framed_validate_entries hr config "remotes" validate_remote
             framed_validate_remote).
  destruct (validate_entries hr config "remotes" validate_remote empty_diag)
    as [d5|e]; cbn [bind]; [|reflexivity].
  rewrite (framed_for_each (check_recommended config) recommended_fields
             (framed_check_recommended config)).
  destruct (for_each (check_recommended config) recommended_fields empty_diag)
    as [d6|e]; cbn [bind]; [|reflexivity].
  rewrite (framed_check_repository config).
  destruct (check_repository config empty_diag) as [d7|e]; cbn [bind]; [|reflexivity].
  f_equal. unfold extend_all, fold_right. rewrite extend_empty_r.
  replace (if negb (truthy hp) && negb (truthy hr)
           then error_append no_deployment (extend d1 d2) else extend d1 d2)
    with (extend (extend d1 d2) (deployment_rule hp hr)).
  - now rewrite !extend_assoc.
  - unfold deployment_rule.
    destruct (negb (truthy hp) && negb (truthy hr)).
    + now rewrite <- error_append_extend.
    + now rewrite extend_empty_r.
Qed.

Lemma errors_extend_all (l : list diag) :
  errors (extend_all l) = concat (map errors l).
Proof. induction l as [|d l IH]; simpl; [reflexivity | now rewrite IH]. Qed.

Lemma warnings_extend_all (l : list diag) :
  warnings (extend_all l) = concat (map warnings l).
Proof. induction l as [|d l IH]; simpl; [reflexivity | now rewrite IH]. Qed.

Lemma for_each_outputs {A : Type} (body : A -> diag -> result diag)
    (out : A -> diag) (l : list A) :
  (forall x, framed (body x)) ->
  (forall x, In x l -> body x empty_diag = Ok (out x)) ->
  for_each body l empty_diag = Ok (extend_all (map out l)).
Proof.
  intros B O. induction l as [|x rest IH]; [reflexivity|].
  cbn [for_each]. rewrite (O x (or_introl eq_refl)). cbn [bind].
  rewrite (framed_for_each body rest B (out x)).
  rewrite IH by (intros y Hy; apply O; now right).
  reflexivity.
Qed.

(** *** The rules on a mapping *)

Section OnMapping.

Variable kvs : list (pystr * json).

Lemma check_required_dict (field : pystr) :
  check_required (JDict kvs) field empty_diag
  = Ok {| errors := required_error kvs field; warnings := [] |}.
Proof.
  unfold check_required, not_contains, contains, getitem, required_error.
  cbn [bind]. destruct (lookup field kvs) as [v|]; cbn [bind negb]; [|reflexivity].
  now destruct (truthy v).
Qed.

Lemma required_rule_dict :
  for_each (check_required (JDict kvs)) required_fields empty_diag
  = Ok {| errors := flat_map (required_error kvs) required_fields; warnings := [] |}.
Proof.
  rewrite (for_each_outputs _
             (fun f => {| errors := required_error kvs f; warnings := [] |})).
  - unfold required_fields, extend_all, extend; simpl.
    now rewrite !app_nil_r.
  - apply framed_check_required.
  - intros; apply check_required_dict.
Qed.

Lemma recommended_rule_dict :
  for_each (check_recommended (JDict kvs)) recommended_fields empty_diag
  = Ok {| errors := []; warnings := flat_map (recommended_warning kvs) recommended_fields |}.
Proof.
  rewrite (for_each_outputs _
             (fun f => {| errors := []; warnings := recommended_warning kvs f |})).
  - unfold recommended_fields, extend_all, extend; simpl.
    now rewrite !app_nil_r.
  - apply framed_check_recommended.
  - intros f _. unfold check_recommended, recommend_key, not_contains, contains,
      recommended_warning. cbn [bind].
    now destruct (lookup f kvs).
Qed.

Lemma name_rule_dict :
  check_name_format (JDict kvs) empty_diag
  = match lookup "name" kvs with
    | None => Ok empty_diag
    | Some (JStr name) => Ok {| errors := []; warnings := name_warnings name |}
    | Some _ => Raise AttributeError
    end.
Proof.
  unfold check_name_format, contains, getitem. cbn [bind].
  destruct (lookup "name" kvs) as [[| | | | name | |]|]; try reflexivity.
  unfold startswith, not_contains, contains, name_warnings. cbn [bind Py.str].
  destruct (str_prefix "io.github." name); cbn [bind negb andb];
    [|destruct (str_prefix "com." name); cbn [bind negb andb]];
    destruct (str_contains "/" name); reflexivity.
Qed.

(** [has_packages] and [has_remotes] are truthy exactly when the key is
    bound to a truthy value (whose length can be taken). *)
Lemma has_deployment_dict (key : pystr) (h : json) :
  has_deployment (JDict kvs) key = Ok h ->
  truthy h = match lookup key kvs with Some v => truthy v | None => false end.
Proof.
  unfold has_deployment, get, getitem. cbn [bind].
  destruct (lookup key kvs) as [v|]; cbn [truthy].
  - destruct (truthy v) eqn:T; cbn [bind]; [|intro; inv_ok; exact T].
    destruct v; simpl in *; try discriminate; intro; inv_ok; simpl.
    + destruct s; [discriminate | reflexivity].
    + destruct items; [discriminate | reflexivity].
    + destruct entries; [discriminate | reflexivity].
  - intro; inv_ok; reflexivity.
Qed.

Lemma has_deployment_absent (key : pystr) :
  lookup key kvs = None -> has_deployment (JDict kvs) key = Ok JNull.
Proof. intro E. unfold has_deployment, get. now rewrite E. Qed.

Lemma has_deployment_falsy (key : pystr) (v : json) :
  lookup key kvs = Some v -> truthy v = false ->
  has_deployment (JDict kvs) key = Ok v.
Proof. intros E T. unfold has_deployment, get. rewrite E. cbn [bind]. now rewrite T. Qed.

Lemma repository_rule_dict :
  check_repository (JDict kvs) empty_diag = Ok (repository_diag kvs).
Proof.
  unfold check_repository, contains, getitem, repository_diag. cbn [bind].
  destruct (lookup "repository" kvs) as [[| | | | | |repo]|]; try reflexivity.
  unfold recommend_key, not_contains, contains. cbn [bind isinstance_dict negb].
  destruct (lookup "type" repo), (lookup "url" repo); reflexivity.
Qed.

End OnMapping.

(** ** Which entry a message is about

    A message of the package loop starts with ["Package i:"] or
    ["Package i,"], one of the remote loop with ["Remote i:"]. *)

(** Two digit strings, each followed by a character that is no digit:
    one is a prefix of the other only if the digits and the character
    agree. *)
Lemma prefix_digits (a b : pystr) (c c' : char) (r r' : pystr) :
  all_digits a = true -> all_digits b = true ->
  is_digit c = false -> is_digit c' = false ->
  str_prefix (a ++ c :: r) (b ++ c' :: r') = true ->
  a = b /\ c = c'.
Proof.
  revert b. induction a as [|x a IH]; intros [|y b] Da Db Nc Nc' P;
    cbn [app str_prefix] in P;
    apply andb_prop in P as [E P]; apply N.eqb_eq in E; subst.
  - auto.
  - cbn in Db. apply andb_prop in Db as [Dy _]. congruence.
  - cbn in Da. apply andb_prop in Da as [Dx _]. congruence.
  - cbn in Da, Db. apply andb_prop in Da as [_ Da]. apply andb_prop in Db as [_ Db].
    destruct (IH b Da Db Nc Nc' P) as [-> ->]. auto.
Qed.

Lemma prefix_index (i j : nat) (c c' : char) (r r' : pystr) :
  is_digit c = false -> is_digit c' = false ->
  str_prefix (str_of_nat i ++ c :: r) (str_of_nat j ++ c' :: r')
  = Nat.eqb i j && N.eqb c c' && str_prefix r r'.
Proof.
  intros Nc Nc'.
  destruct (str_prefix (str_of_nat i ++ c :: r) (str_of_nat j ++ c' :: r')) eqn:P.
  - pose proof P as P'.
    apply prefix_digits in P' as [E ->]; auto using all_digits_str_of_nat.
    apply str_of_nat_inj in E. subst j.
    rewrite prefix_app_same in P. cbn [str_prefix] in P.
    rewrite N.eqb_refl in P. cbn [andb] in P.
    now rewrite Nat.eqb_refl, N.eqb_refl, P.
  - destruct (Nat.eqb_spec i j) as [->|N]; [|reflexivity].
    rewrite prefix_app_same in P. cbn [str_prefix] in P.
    cbn [andb]. now rewrite P.
Qed.

Lemma refers_package_line (i j : nat) (m : pystr) :
  package_line j m -> refers_package i m = Nat.eqb i j.
Proof.
  intros [text|pidx text]; unfold refers_package, package_msg, platform_msg;
    rewrite !(prefix_app_same "Package "); cbn [app];
    rewrite !(prefix_index i j) by reflexivity; cbn;
    destruct (Nat.eqb i j); reflexivity.
Qed.

Lemma refers_remote_line (i j : nat) (m : pystr) :
  remote_line j m -> refers_remote i m = Nat.eqb i j.
Proof.
  intros [text]; unfold refers_remote, remote_msg.
  rewrite !(prefix_app_same "Remote "). cbn [app].
  rewrite !(prefix_index i j) by reflexivity; cbn.
  destruct (Nat.eqb i j); reflexivity.
Qed.

(** ** What a rule's messages look like *)

Lemma all_lines_empty (P : pystr -> Prop) : all_lines P empty_diag.
Proof. split; constructor. Qed.

Lemma all_lines_extend (P : pystr -> Prop) (d c : diag) :
  all_lines P d -> all_lines P c -> all_lines P (extend d c).
Proof. intros [E W] [E' W']; split; simpl; apply Forall_app; auto. Qed.

Lemma all_lines_impl (P Q : pystr -> Prop) (d : diag) :
  (forall m, P m -> Q m) -> all_lines P d -> all_lines Q d.
Proof. intros I [E W]; split; eapply Forall_impl; eauto. Qed.

Lemma all_lines_error (P : pystr -> Prop) (m : pystr) (d : diag) :
  P m -> all_lines P d -> all_lines P (error_append m d).
Proof. intros Pm [E W]; split; simpl; auto. apply Forall_app; auto. Qed.

Lemma all_lines_warning (P : pystr -> Prop) (m : pystr) (d : diag) :
  P m -> all_lines P d -> all_lines P (warning_append m d).
Proof. intros Pm [E W]; split; simpl; auto. apply Forall_app; auto. Qed.

Lemma keeps_from_empty (P : pystr -> Prop) (f : diag -> result diag) (c : diag) :
  keeps P f -> f empty_diag = Ok c -> all_lines P c.
Proof. intros K E. exact (K _ _ (all_lines_empty P) E). Qed.

Lemma keeps_require_key (P : pystr -> Prop) (obj : json) (key msg : pystr) :
  P msg -> keeps P (require_key obj key msg).
Proof.
  intros Pm d d' A. unfold require_key.
  destruct (not_contains key obj) as [[|]|e]; cbn [bind]; intro; inv_ok;
    auto using all_lines_error.
Qed.

Lemma keeps_seq (P : pystr -> Prop) (f g : diag -> result diag) :
  keeps P f -> keeps P g -> keeps P (fun d => d' <- f d ;; g d').
Proof.
  intros F G d d' A. destruct (f d) as [c|e] eqn:E; cbn [bind]; [|discriminate].
  intro H. exact (G _ _ (F _ _ A E) H).
Qed.

Lemma keeps_for_enumerate (P : pystr -> Prop)
    (body : nat -> json -> diag -> result diag) (l : list json) :
  (forall i x, keeps P (body i x)) -> forall idx, keeps P (for_enumerate body idx l).
Proof.
  intro B. induction l as [|x rest IH]; intros idx d d' A; cbn [for_enumerate].
  - intro; inv_ok; auto.
  - apply (keeps_seq P (body idx x) (for_enumerate body (S idx) rest)); auto.
Qed.

Lemma keeps_validate_platform (idx pidx : nat) (platform : json) :
  keeps (package_line idx) (validate_platform idx pidx platform).
Proof.
  unfold validate_platform.
  repeat (apply (keeps_seq _ (require_key _ _ _));
          [apply keeps_require_key; constructor|]).
  apply keeps_require_key; constructor.
Qed.

Lemma keeps_validate_mcpb (idx : nat) (package : json) :
  keeps (package_line idx) (validate_mcpb idx package).
Proof.
  unfold validate_mcpb.
  repeat (apply (keeps_seq _ (require_key _ _ _));
          [apply keeps_require_key; constructor|]).
  intros d d' A.
  destruct (not_contains "platforms" package) as [no_platforms|e];
    cbn [bind]; [|discriminate].
  destruct (if no_platforms then Ok true
            else p <- getitem package "platforms" ;; Ok (negb (truthy p)))
    as [[|]|e]; cbn [bind]; [| |discriminate].
  - intro; inv_ok. apply all_lines_error; [constructor | assumption].
  - destruct (getitem package "platforms") as [p|e]; cbn [bind]; [|discriminate].
    destruct (iter p) as [platforms|e]; cbn [bind]; [|discriminate].
    apply keeps_for_enumerate; [|assumption].
    intros; apply keeps_validate_platform.
Qed.

Lemma keeps_validate_package (idx : nat) (package : json) :
  keeps (package_line idx) (validate_package idx package).
Proof.
  intros d d' A. unfold validate_package.
  destruct (get package "type" JNull) as [pkg_type|e]; cbn [bind]; [|discriminate].
  assert (A' : all_lines (package_line idx)
                 (if negb (truthy pkg_type)
                  then error_append (package_msg idx "Missing 'type' field") d
                  else if negb (in_strs pkg_type package_types)
                  then warning_append
                         (package_msg idx
                            ("Unknown package type '" ++ str pkg_type ++ "'")) d
                  else d)).
  { destruct (negb (truthy pkg_type));
      [apply all_lines_error; [constructor | assumption]|].
    destruct (negb (in_strs pkg_type package_types));
      [apply all_lines_warning; [constructor | assumption] | assumption]. }
  destruct (eq_str pkg_type "mcpb").
  - apply keeps_validate_mcpb; assumption.
  - intro; inv_ok; assumption.
Qed.

Lemma keeps_validate_remote (idx : nat) (remote : json) :
  keeps (remote_line idx) (validate_remote idx remote).
Proof.
  unfold validate_remote.
  apply (keeps_seq _ (require_key _ _ _)); [apply keeps_require_key; constructor|].
  intros d d' A.
  destruct (not_contains "transport" remote) as [[|]|e]; cbn [bind];
    [| |discriminate].
  - intro; inv_ok. apply all_lines_error; [constructor | assumption].
  - destruct (getitem remote "transport") as [t|e]; cbn [bind]; [|discriminate].
    destruct (negb (in_strs t transports)); [|intro; inv_ok; assumption].
    intro; inv_ok. apply all_lines_warning; [constructor | assumption].
Qed.

(** *** The loop over the entries *)

Section Entries.

Variable body : nat -> json -> diag -> result diag.
Variable line : nat -> pystr -> Prop.
Variable refers : nat -> pystr -> bool.

Hypothesis body_framed : forall i x, framed (body i x).
Hypothesis body_lines : forall i x, keeps (line i) (body i x).
Hypothesis refers_line : forall i j m, line j m -> refers i m = Nat.eqb i j.

Lemma for_enumerate_cons (idx : nat) (x : json) (rest : list json) (d : diag) :
  for_enumerate body idx (x :: rest) empty_diag = Ok d ->
  exists c r, body idx x empty_diag = Ok c
              /\ for_enumerate body (S idx) rest empty_diag = Ok r
              /\ d = extend c r.
Proof.
  cbn [for_enumerate].
  destruct (body idx x empty_diag) as [c|e]; cbn [bind]; [|discriminate].
  rewrite (framed_for_enumerate body rest body_framed (S idx) c).
  destruct (for_enumerate body (S idx) rest empty_diag) as [r|e]; cbn [bind];
    [|discriminate].
  intro; inv_ok. eauto.
Qed.

(** The messages of a loop from index [start] are about entries from
    [start] on. *)
Lemma for_enumerate_lines (l : list json) :
  forall start d,
    for_enumerate body start l empty_diag = Ok d ->
    all_lines (fun m => exists j, start <= j /\ line j m) d.
Proof.
  induction l as [|x rest IH]; intros start d E.
  - cbn in E. inv_ok. apply all_lines_empty.
  - apply for_enumerate_cons in E as (c & r & Ec & Er & ->).
    apply all_lines_extend.
    + apply (all_lines_impl (line start)); [eauto|].
      exact (keeps_from_empty _ _ _ (body_lines start x) Ec).
    + apply (all_lines_impl (fun m => exists j, S start <= j /\ line j m)).
      * intros m (j & L & Hm). exists j. split; [lia | assumption].
      * eauto.
Qed.

Lemma filter_all {A : Type} (f : A -> bool) (l : list A) :
  Forall (fun x => f x = true) l -> filter f l = l.
Proof. induction 1 as [|x l Hx _ IH]; simpl; [|rewrite Hx, IH]; reflexivity. Qed.

Lemma filter_none {A : Type} (f : A -> bool) (l : list A) :
  Forall (fun x => f x = false) l -> filter f l = [].
Proof. induction 1 as [|x l Hx _ IH]; simpl; [|rewrite Hx, IH]; reflexivity. Qed.

Lemma filter_own (i : nat) (l : list pystr) :
  Forall (line i) l -> filter (refers i) l = l.
Proof.
  intro F. apply filter_all. eapply Forall_impl; [|exact F].
  intros m L. cbv beta. rewrite (refers_line i i m L). apply Nat.eqb_refl.
Qed.

Lemma filter_other (i : nat) (P : nat -> Prop) (l : list pystr) :
  (forall j, P j -> j <> i) ->
  Forall (fun m => exists j, P j /\ line j m) l -> filter (refers i) l = [].
Proof.
  intros N F. apply filter_none. eapply Forall_impl; [|exact F].
  intros m (j & Pj & L). cbv beta. rewrite (refers_line i j m L).
  apply Nat.eqb_neq. intro E. now apply (N j Pj).
Qed.

(** The messages of a finished loop that are about entry [i] are what
    the body appended for that entry, in order. *)
Lemma for_enumerate_filter (l : list json) :
  forall start d i x,
    for_enumerate body start l empty_diag = Ok d ->
    nth_error l i = Some x ->
    exists c, body (start + i) x empty_diag = Ok c
              /\ filter (refers (start + i)) (errors d) = errors c
              /\ filter (refers (start + i)) (warnings d) = warnings c.
Proof.
  induction l as [|y rest IH]; intros start d i x E N.
  - destruct i; discriminate.
  - apply for_enumerate_cons in E as (c & r & Ec & Er & ->).
    cbn [extend errors warnings]. rewrite !filter_app.
    destruct i as [|i]; cbn in N.
    + inv_ok. rewrite Nat.add_0_r. exists c. split; [assumption|].
      destruct (keeps_from_empty _ _ _ (body_lines start x) Ec) as [Le Lw].
      destruct (for_enumerate_lines _ _ _ Er) as [Re Rw].
      rewrite (filter_own start _ Le), (filter_own start _ Lw).
      rewrite (filter_other start (fun j => S start <= j) (errors r))
        by (assumption || (intros; lia)).
      rewrite (filter_other start (fun j => S start <= j) (warnings r))
        by (assumption || (intros; lia)).
      now rewrite !app_nil_r.
    + destruct (IH (S start) r i x Er N) as (cx & Ex & Fe & Fw).
      replace (start + S i) with (S start + i) by lia.
      exists cx. split; [assumption|].
      destruct (keeps_from_empty _ _ _ (body_lines start y) Ec) as [Le Lw].
      assert (O : forall l', Forall (line start) l' ->
                             filter (refers (S start + i)) l' = []).
      { intros l' F. apply (filter_other _ (fun j => j = start)); [intros; lia|].
        eapply Forall_impl; [|exact F]. cbv beta; eauto. }
      now rewrite (O _ Le), (O _ Lw), Fe, Fw.
Qed.

End Entries.

(** ** The anatomy of a validation that returns *)

Lemma validate_entries_inv (h config : json) (key : pystr)
    (body : nat -> json -> diag -> result diag) (d : diag) :
  validate_entries h config key body empty_diag = Ok d ->
  (truthy h = false /\ d = empty_diag)
  \/ (truthy h = true
      /\ exists c entries, getitem config key = Ok c /\ iter c = Ok entries
                           /\ for_enumerate body 0 entries empty_diag = Ok d).
Proof.
  unfold validate_entries. destruct (truthy h); [|intro; inv_ok; auto].
  destruct (getitem config key) as [c|e]; cbn [bind]; [|discriminate].
  destruct (iter c) as [entries|e] eqn:I; cbn [bind]; [|discriminate].
  intro E. right. eauto 6.
Qed.

Lemma package_entries_lines (h config : json) (d : diag) :
  validate_entries h config "packages" validate_package empty_diag = Ok d ->
  all_lines (fun m => exists j, package_line j m) d.
Proof.
  intro E. apply validate_entries_inv in E as [[_ ->]|(_ & c & l & _ & _ & E)].
  - apply all_lines_empty.
  - apply (for_enumerate_lines validate_package package_line
             framed_validate_package keeps_validate_package) in E.
    eapply all_lines_impl; [|exact E]. intros m (j & _ & L). eauto.
Qed.

Lemma remote_entries_lines (h config : json) (d : diag) :
  validate_entries h config "remotes" validate_remote empty_diag = Ok d ->
  all_lines (fun m => exists j, remote_line j m) d.
Proof.
  intro E. apply validate_entries_inv in E as [[_ ->]|(_ & c & l & _ & _ & E)].
  - apply all_lines_empty.
  - apply (for_enumerate_lines validate_remote remote_line
             framed_validate_remote keeps_validate_remote) in E.
    eapply all_lines_impl; [|exact E]. intros m (j & _ & L). eauto.
Qed.

Lemma deployment_rule_warnings (hp hr : json) : warnings (deployment_rule hp hr) = [].
Proof. unfold deployment_rule. now destruct (negb (truthy hp) && negb (truthy hr)). Qed.

Lemma validate_anatomy (kvs : list (pystr * json)) (errs warns : list pystr) :
  validate_server_json (JDict kvs) = Ok (errs, warns) -> anatomy kvs errs warns.
Proof.
  unfold validate_server_json. rewrite validate_diag_rules.
  rewrite required_rule_dict, recommended_rule_dict, repository_rule_dict.
  cbn [bind]. pose proof (name_rule_dict kvs) as N.
  destruct (check_name_format (JDict kvs) empty_diag) as [d2|e] eqn:E2;
    cbn [bind]; [|discriminate].
  destruct (has_deployment (JDict kvs) "packages") as [hp|e] eqn:Ehp;
    cbn [bind]; [|discriminate].
  destruct (has_deployment (JDict kvs) "remotes") as [hr|e] eqn:Ehr;
    cbn [bind]; [|discriminate].
  destruct (validate_entries hp (JDict kvs) "packages" validate_package empty_diag)
    as [d4|e] eqn:E4; cbn [bind]; [|discriminate].
  destruct (validate_entries hr (JDict kvs) "remotes" validate_remote empty_diag)
    as [d5|e] eqn:E5; cbn [bind]; [|discriminate].
  rewrite errors_extend_all, warnings_extend_all.
  cbn [map concat errors warnings].
  rewrite deployment_rule_warnings, !app_nil_r. cbn [app].
  assert (D2 : d2 = {| errors := []; warnings := warnings d2 |}).
  { destruct (lookup "name" kvs) as [[| | | | name | |]|]; inv_ok; reflexivity. }
  rewrite D2 in E2. rewrite D2 at 1. cbn [errors app].
  intro R. injection R as <- <-.
  now apply (Anatomy kvs (warnings d2) hp hr d4 d5).
Qed.

(** *** Each rule's messages have their shape *)

Lemma required_error_lines (kvs : list (pystr * json)) (field : pystr) :
  Forall required_line (required_error kvs field).
Proof.
  unfold required_error. destruct (lookup field kvs) as [v|];
    [destruct (truthy v)|]; repeat constructor.
Qed.

Lemma required_part_lines (kvs : list (pystr * json)) :
  Forall required_line (flat_map (required_error kvs) required_fields).
Proof.
  unfold required_fields. cbn [flat_map].
  repeat (apply Forall_app; split); auto using required_error_lines.
Qed.

Lemma deployment_rule_lines (hp hr : json) :
  Forall deployment_line (errors (deployment_rule hp hr)).
Proof.
  unfold deployment_rule. destruct (negb (truthy hp) && negb (truthy hr));
    repeat constructor.
Qed.

Lemma name_part_lines (kvs : list (pystr * json)) (part : list pystr) :
  check_name_format (JDict kvs) empty_diag = Ok {| errors := []; warnings := part |} ->
  Forall name_line part.
Proof.
  rewrite name_rule_dict.
  destruct (lookup "name" kvs) as [[| | | | name | |]|]; intro; inv_ok;
    try constructor.
  unfold name_warnings. apply Forall_app; split.
  - destruct (negb (str_prefix "io.github." name) && negb (str_prefix "com." name));
      repeat constructor.
  - destruct (negb (str_contains "/" name)); repeat constructor.
Qed.

Lemma recommended_part_lines (kvs : list (pystr * json)) :
  Forall recommended_line (flat_map (recommended_warning kvs) recommended_fields).
Proof.
  unfold recommended_fields, recommended_warning. cbn [flat_map].
  repeat (apply Forall_app; split); try constructor;
    match goal with |- context [lookup ?f kvs] => destruct (lookup f kvs) end;
    repeat constructor.
Qed.

Lemma repository_lines (kvs : list (pystr * json)) :
  all_lines repository_line (repository_diag kvs).
Proof.
  unfold repository_diag.
  destruct (lookup "repository" kvs) as [[| | | | | |repo]|];
    try (split; repeat constructor).
  cbn [warnings]. apply Forall_app; split;
    match goal with |- context [lookup ?f repo] => destruct (lookup f repo) end;
    repeat constructor.
Qed.

Lemma package_part_lines (h config : json) (d : diag) :
  validate_entries h config "packages" validate_package empty_diag = Ok d ->
  all_lines any_package_line d.
Proof.
  intro E. apply package_entries_lines in E.
  eapply all_lines_impl; [|exact E]. intros m [j L]. now exists j.
Qed.

Lemma remote_part_lines (h config : json) (d : diag) :
  validate_entries h config "remotes" validate_remote empty_diag = Ok d ->
  all_lines any_remote_line d.
Proof.
  intro E. apply remote_entries_lines in E.
  eapply all_lines_impl; [|exact E]. intros m [j L]. now exists j.
Qed.

(** A filter that rejects every message of some shape leaves nothing of
    a list of such messages. *)
Lemma filter_shape (f : pystr -> bool) (P : pystr -> Prop) (l : list pystr) :
  (forall m, P m -> f m = false) -> Forall P l -> filter f l = [].
Proof. intros N F. apply filter_none. eapply Forall_impl; [|exact F]. exact N. Qed.

(** ** Required top-level fields *)

Lemma required_errors_exact (kvs : list (pystr * json)) (errs warns : list pystr) :
  validate_server_json (JDict kvs) = Ok (errs, warns) ->
  filter is_required_line errs = flat_map (required_error kvs) required_fields.
Proof.
  intro V. destruct (validate_anatomy _ _ _ V). rewrite !filter_app.
  rewrite (filter_all is_required_line (flat_map _ _)).
  - rewrite (filter_shape _ deployment_line (errors (deployment_rule _ _))),
      (filter_shape _ any_package_line (errors packages_part)),
      (filter_shape _ any_remote_line (errors remotes_part)),
      (filter_shape _ repository_line (errors (repository_diag kvs))).
    + now rewrite !app_nil_r.
    + now intros m [].
    + apply repository_lines.
    + now intros m [j []].
    + eapply remote_part_lines; eassumption.
    + now intros m [j []].
    + eapply package_part_lines; eassumption.
    + now intros m [].
    + apply deployment_rule_lines.
  - eapply Forall_impl; [|apply required_part_lines].
    intros m [field|field]; unfold is_required_line, missing_required, empty_required;
      rewrite prefix_append; auto using orb_true_r.
Qed.

Lemma in_required_errors (kvs : list (pystr * json)) (errs warns : list pystr)
    (m : pystr) :
  validate_server_json (JDict kvs) = Ok (errs, warns) ->
  is_required_line m = true ->
  In m errs <-> In m (flat_map (required_error kvs) required_fields).
Proof.
  intros V R. rewrite <- (required_errors_exact kvs errs warns V), filter_In.
  tauto.
Qed.

Lemma missing_required_iff (kvs : list (pystr * json)) (field : pystr) :
  In field required_fields ->
  In (missing_required field) (flat_map (required_error kvs) required_fields)
  <-> lookup field kvs = None.
Proof.
  unfold required_fields, required_error. cbn [flat_map].
  intros [<-|[<-|[<-|[]]]];
    destruct (lookup "name" kvs) as [v1|]; try destruct (truthy v1);
    destruct (lookup "version" kvs) as [v2|]; try destruct (truthy v2);
    destruct (lookup "description" kvs) as [v3|]; try destruct (truthy v3);
    cbn; intuition (try discriminate; try congruence).
Qed.

Lemma empty_required_iff (kvs : list (pystr * json)) (field : pystr) :
  In field required_fields ->
  In (empty_required field) (flat_map (required_error kvs) required_fields)
  <-> match lookup field kvs with
      | Some v => truthy v = false
      | None => False
      end.
Proof.
  unfold required_fields, required_error. cbn [flat_map].
  intros [<-|[<-|[<-|[]]]];
    destruct (lookup "name" kvs) as [v1|]; try destruct (truthy v1) eqn:T1;
    destruct (lookup "version" kvs) as [v2|]; try destruct (truthy v2) eqn:T2;
    destruct (lookup "description" kvs) as [v3|]; try destruct (truthy v3) eqn:T3;
    cbn; intuition (try discriminate; try congruence).
Qed.

Lemma reports_required_of (kvs : list (pystr * json)) (field : pystr)
    (l : list pystr) :
  (forall m, is_required_line m = true ->
             In m l <-> In m (flat_map (required_error kvs) required_fields)) ->
  In field required_fields ->
  reports_required kvs field l.
Proof.
  intros I F.
  assert (M : In (missing_required field) l <-> lookup field kvs = None).
  { rewrite I.
    - now apply missing_required_iff.
    - unfold is_required_line, missing_required. now rewrite prefix_append. }
  assert (E : In (empty_required field) l
              <-> exists v, lookup field kvs = Some v /\ truthy v = false).
  { rewrite I.
    - rewrite (empty_required_iff kvs field F).
      destruct (lookup field kvs) as [v|].
      + split; [eauto | now intros (v' & [= <-] & T)].
      + split; [tauto | now intros (v' & [=] & _)].
    - unfold is_required_line, empty_required.
      rewrite prefix_append. apply orb_true_r. }
  split; [exact M | split; [exact E|]].
  intros [Hm He]. apply M in Hm. apply E in He as (v & Ev & _). congruence.
Qed.

(** For a mapping and each of the required fields: the error list
    contains "Missing required field: <field>" exactly when the key is
    absent, and "Field '<field>' cannot be empty" exactly when the key
    is present with a falsy value; the two are never both in the list.
    This holds of the list as the loop over the required fields leaves
    it, and of the list the validator returns when it returns one. *)
Lemma required_errors_when_returned (kvs : list (pystr * json)) (field : pystr) :
  In field required_fields ->
  (exists d,
      for_each (check_required (JDict kvs)) required_fields empty_diag = Ok d
      /\ reports_required kvs field (errors d))
  /\ (forall errs warns,
         validate_server_json (JDict kvs) = Ok (errs, warns) ->
         reports_required kvs field errs).
Proof.
  intro F. split.
  - eexists. split; [apply required_rule_dict|].
    apply reports_required_of; [|exact F]. intros; cbn [errors]. tauto.
  - intros errs warns V. apply reports_required_of; [|exact F].
    intros m R. exact (in_required_errors kvs errs warns m V R).
Qed.

(** A ['name'] that is not a str makes the validator raise, whatever
    else the mapping holds: the name rule calls [startswith] on it. *)
Lemma name_not_str_raises (kvs : list (pystr * json)) (v : json) :
  lookup "name" kvs = Some v -> is_str v = false ->
  validate_server_json (JDict kvs) = Raise AttributeError.
Proof.
  intros L S. unfold validate_server_json. rewrite validate_diag_rules.
  rewrite required_rule_dict, name_rule_dict, L. cbn [bind].
  destruct v; try reflexivity. discriminate S.
Qed.

(** C1 on [doc_null_name], where ['name'] is bound to [null], a falsy
    value: the loop over the required fields appends
    "Field 'name' cannot be empty" to its list, then the name rule
    calls [startswith] on [null] and raises [AttributeError]; the
    validator returns no error list for the message to be in. *)
Theorem required_error_lost_on_null_name :
  lookup "name" doc_null_name = Some JNull
  /\ truthy JNull = false
  /\ for_each (check_required (JDict doc_null_name)) required_fields empty_diag
     = Ok {| errors := ["Field 'name' cannot be empty"]; warnings := [] |}
  /\ check_name_format (JDict doc_null_name)
       {| errors := ["Field 'name' cannot be empty"]; warnings := [] |}
     = Raise AttributeError
  /\ validate_server_json (JDict doc_null_name) = Raise AttributeError.
Proof. repeat split; vm_compute; reflexivity. Qed.

(** ** Deployment presence *)

Lemma deployment_errors_exact (kvs : list (pystr * json)) (errs warns : list pystr) :
  validate_server_json (JDict kvs) = Ok (errs, warns) ->
  In no_deployment errs
  <-> match lookup "packages" kvs with Some v => truthy v | None => false end = false
      /\ match lookup "remotes" kvs with Some v => truthy v | None => false end = false.
Proof.
  intro V. destruct (validate_anatomy _ _ _ V).
  rewrite <- (has_deployment_dict kvs "packages" has_packages) by assumption.
  rewrite <- (has_deployment_dict kvs "remotes" has_remotes) by assumption.
  assert (S : forall m, In m (filter (str_eqb no_deployment)
                                (flat_map (required_error kvs) required_fields
                                 ++ errors (deployment_rule has_packages has_remotes)
                                 ++ errors packages_part ++ errors remotes_part
                                 ++ errors (repository_diag kvs)))
                        <-> In m (errors (deployment_rule has_packages has_remotes))
                            /\ m = no_deployment).
  { intro m. rewrite !filter_app.
    rewrite (filter_shape _ required_line (flat_map _ _)),
      (filter_shape _ any_package_line (errors packages_part)),
      (filter_shape _ any_remote_line (errors remotes_part)),
      (filter_shape _ repository_line (errors (repository_diag kvs))).
    - rewrite app_nil_r. cbn [app]. rewrite filter_In, str_eqb_eq.
      intuition congruence.
    - now intros ? [].
    - apply repository_lines.
    - now intros ? [j []].
    - eapply remote_part_lines; eassumption.
    - now intros ? [j []].
    - eapply package_part_lines; eassumption.
    - now intros ? [].
    - apply required_part_lines. }
  transitivity (In no_deployment (errors (deployment_rule has_packages has_remotes))).
  - split; intro H.
    + apply (S no_deployment), filter_In. split; [exact H | apply str_eqb_refl].
    + pose proof (proj2 (S no_deployment) (conj H eq_refl)) as H'.
      apply filter_In in H'. apply H'.
  - unfold deployment_rule.
    destruct (truthy has_packages), (truthy has_remotes); cbn;
      intuition discriminate.
Qed.

(** If ['packages'] is absent or an empty sequence and ['remotes'] is
    absent or an empty sequence, the error list the validator returns,
    when it returns one, contains "Must have at least one package or
    remote deployment"; if either is a sequence with an entry, the list
    does not contain it. *)
Lemma deployment_error_when_returned (kvs : list (pystr * json))
    (errs warns : list pystr) :
  validate_server_json (JDict kvs) = Ok (errs, warns) ->
  ((lookup "packages" kvs = None \/ lookup "packages" kvs = Some (JList []))
   /\ (lookup "remotes" kvs = None \/ lookup "remotes" kvs = Some (JList []))
   -> In no_deployment errs)
  /\ ((exists x l, lookup "packages" kvs = Some (JList (x :: l)))
      \/ (exists x l, lookup "remotes" kvs = Some (JList (x :: l)))
      -> ~ In no_deployment errs).
Proof.
  intro V. rewrite (deployment_errors_exact kvs errs warns V). split.
  - intros [[-> | ->] [-> | ->]]; auto.
  - intros [(x & l & ->) | (x & l & ->)] [P R]; discriminate.
Qed.

(** C3 on [doc_numeric_name], where ['packages'] and ['remotes'] are
    empty sequences and ['name'] is the number 5: both flags of the
    deployment rule are falsy, so line 33 would append the error, but
    the name rule, which runs before, raises [AttributeError]; no
    error list is returned and none holds the message. *)
Theorem deployment_error_lost_on_numeric_name :
  lookup "packages" doc_numeric_name = Some (JList [])
  /\ lookup "remotes" doc_numeric_name = Some (JList [])
  /\ has_deployment (JDict doc_numeric_name) "packages" = Ok (JList [])
  /\ has_deployment (JDict doc_numeric_name) "remotes" = Ok (JList [])
  /\ errors (deployment_rule (JList []) (JList [])) = [no_deployment]
  /\ validate_server_json (JDict doc_numeric_name) = Raise AttributeError.
Proof. repeat split; vm_compute; reflexivity. Qed.

(** ** Name format *)

Lemma name_warnings_exact (kvs : list (pystr * json)) (errs warns : list pystr)
    (name : pystr) :
  validate_server_json (JDict kvs) = Ok (errs, warns) ->
  lookup "name" kvs = Some (JStr name) ->
  filter is_name_line warns = name_warnings name.
Proof.
  intros V N. destruct (validate_anatomy _ _ _ V).
  pose proof (name_part_lines _ _ name_rule) as L.
  rewrite name_rule_dict, N in name_rule. inv_ok.
  rewrite !filter_app.
  rewrite (filter_all is_name_line (name_warnings name)).
  - rewrite (filter_shape _ any_package_line (warnings packages_part)),
      (filter_shape _ any_remote_line (warnings remotes_part)),
      (filter_shape _ recommended_line (flat_map _ _)),
      (filter_shape _ repository_line (warnings (repository_diag kvs))).
    + now rewrite !app_nil_r.
    + now intros ? [].
    + apply repository_lines.
    + now intros ? [].
    + apply recommended_part_lines.
    + now intros ? [j []].
    + eapply remote_part_lines; eassumption.
    + now intros ? [j []].
    + eapply package_part_lines; eassumption.
  - eapply Forall_impl; [|exact L]. now intros ? [].
Qed.

Lemma name_checks (kvs : list (pystr * json)) (errs warns : list pystr)
    (name : pystr) :
  validate_server_json (JDict kvs) = Ok (errs, warns) ->
  lookup "name" kvs = Some (JStr name) ->
  (In (namespace_warning name) warns
   <-> str_prefix "io.github." name = false /\ str_prefix "com." name = false)
  /\ (In (slash_warning name) warns <-> str_contains "/" name = false).
Proof.
  intros V N. pose proof (name_warnings_exact kvs errs warns name V N) as X.
  assert (I : forall m, is_name_line m = true ->
                        In m warns <-> In m (name_warnings name)).
  { intros m Hm. rewrite <- X, filter_In. tauto. }
  split;
    [rewrite (I (namespace_warning name) eq_refl)
    |rewrite (I (slash_warning name) eq_refl)];
    unfold name_warnings, namespace_warning, slash_warning;
    destruct (str_prefix "io.github." name), (str_prefix "com." name),
      (str_contains "/" name); cbn; intuition (try discriminate).
Qed.

(** C5. With ['name'] equal to "io.github.acme/tool" no name-format
    warning is returned; with "acme-tool" both the namespace warning
    and the slash warning are; with "com.acme/tool" neither is.  For
    any name that is a str, each of the two warnings is returned
    according to its own test alone. *)
Theorem name_format_warnings (kvs : list (pystr * json)) (errs warns : list pystr) :
  validate_server_json (JDict kvs) = Ok (errs, warns) ->
  (lookup "name" kvs = Some (JStr "io.github.acme/tool") ->
   filter is_name_line warns = [])
  /\ (lookup "name" kvs = Some (JStr "acme-tool") ->
      filter is_name_line warns
      = [namespace_warning "acme-tool"; slash_warning "acme-tool"])
  /\ (lookup "name" kvs = Some (JStr "com.acme/tool") ->
      filter is_name_line warns = [])
  /\ (forall name, lookup "name" kvs = Some (JStr name) ->
      (In (namespace_warning name) warns
       <-> str_prefix "io.github." name = false
           /\ str_prefix "com." name = false)
      /\ (In (slash_warning name) warns <-> str_contains "/" name = false)).
Proof.
  intro V. split; [|split; [|split]].
  - intro N. now rewrite (name_warnings_exact kvs errs warns _ V N).
  - intro N. now rewrite (name_warnings_exact kvs errs warns _ V N).
  - intro N. now rewrite (name_warnings_exact kvs errs warns _ V N).
  - intros name N. exact (name_checks kvs errs warns name V N).
Qed.

(** ** Package and remote entries *)

Lemma has_deployment_entries (kvs : list (pystr * json)) (key : pystr)
    (l : list json) (i : nat) (x h : json) :
  lookup key kvs = Some (JList l) -> nth_error l i = Some x ->
  has_deployment (JDict kvs) key = Ok h -> truthy h = true.
Proof.
  intros L N H. rewrite (has_deployment_dict kvs key h H), L.
  destruct l; [destruct i; discriminate | reflexivity].
Qed.

(** The messages about package [i] in the returned lists are those
    [validate_package] appends for it, in order. *)
Lemma package_entry_messages (kvs : list (pystr * json)) (errs warns : list pystr)
    (pkgs : list json) (i : nat) (package : json) :
  validate_server_json (JDict kvs) = Ok (errs, warns) ->
  lookup "packages" kvs = Some (JList pkgs) ->
  nth_error pkgs i = Some package ->
  exists c, validate_package i package empty_diag = Ok c
            /\ filter (refers_package i) errs = errors c
            /\ filter (refers_package i) warns = warnings c.
Proof.
  intros V L N. destruct (validate_anatomy _ _ _ V).
  pose proof (name_part_lines _ _ name_rule) as NL.
  pose proof (remote_part_lines _ _ _ remotes_rule) as [RE RW].
  pose proof (has_deployment_entries _ _ _ _ _ _ L N packages_flag) as T.
  apply validate_entries_inv in packages_rule
    as [[F _]|(_ & c0 & l0 & G & I & E)]; [congruence|].
  unfold getitem in G. rewrite L in G. inv_ok. cbn in I. inv_ok.
  destruct (for_enumerate_filter validate_package package_line refers_package
              framed_validate_package keeps_validate_package refers_package_line
              _ _ _ _ _ E N) as (c & Ec & Fe & Fw).
  cbn [Nat.add] in Ec, Fe, Fw. exists c. split; [assumption|].
  rewrite !filter_app, Fe, Fw.
  rewrite (filter_shape _ required_line (flat_map _ _)),
    (filter_shape _ deployment_line (errors (deployment_rule _ _))),
    (filter_shape _ any_remote_line (errors remotes_part)),
    (filter_shape _ repository_line (errors (repository_diag kvs))),
    (filter_shape _ name_line name_part),
    (filter_shape _ any_remote_line (warnings remotes_part)),
    (filter_shape _ recommended_line (flat_map _ _)),
    (filter_shape _ repository_line (warnings (repository_diag kvs)));
    try (now rewrite !app_nil_r);
    try assumption;
    try apply repository_lines;
    try apply recommended_part_lines;
    try apply deployment_rule_lines;
    try apply required_part_lines;
    try (now intros ? []);
    try (now intros ? [j []]).
Qed.

(** The same for remote [i] and [validate_remote]. *)
Lemma remote_entry_messages (kvs : list (pystr * json)) (errs warns : list pystr)
    (remotes : list json) (i : nat) (remote : json) :
  validate_server_json (JDict kvs) = Ok (errs, warns) ->
  lookup "remotes" kvs = Some (JList remotes) ->
  nth_error remotes i = Some remote ->
  exists c, validate_remote i remote empty_diag = Ok c
            /\ filter (refers_remote i) errs = errors c
            /\ filter (refers_remote i) warns = warnings c.
Proof.
  intros V L N. destruct (validate_anatomy _ _ _ V).
  pose proof (name_part_lines _ _ name_rule) as NL.
  pose proof (package_part_lines _ _ _ packages_rule) as [PE PW].
  pose proof (has_deployment_entries _ _ _ _ _ _ L N remotes_flag) as T.
  apply validate_entries_inv in remotes_rule
    as [[F _]|(_ & c0 & l0 & G & I & E)]; [congruence|].
  unfold getitem in G. rewrite L in G. inv_ok. cbn in I. inv_ok.
  destruct (for_enumerate_filter validate_remote remote_line refers_remote
              framed_validate_remote keeps_validate_remote refers_remote_line
              _ _ _ _ _ E N) as (c & Ec & Fe & Fw).
  cbn [Nat.add] in Ec, Fe, Fw. exists c. split; [assumption|].
  rewrite !filter_app, Fe, Fw.
  rewrite (filter_shape _ required_line (flat_map _ _)),
    (filter_shape _ deployment_line (errors (deployment_rule _ _))),
    (filter_shape _ any_package_line (errors packages_part)),
    (filter_shape _ repository_line (errors (repository_diag kvs))),
    (filter_shape _ name_line name_part),
    (filter_shape _ any_package_line (warnings packages_part)),
    (filter_shape _ recommended_line (flat_map _ _)),
    (filter_shape _ repository_line (warnings (repository_diag kvs)));
    try (now rewrite !app_nil_r);
    try assumption;
    try apply repository_lines;
    try apply recommended_part_lines;
    try apply deployment_rule_lines;
    try apply required_part_lines;
    try (now intros ? []);
    try (now intros ? [j []]).
Qed.

Lemma validate_package_mcpb_bare (i : nat) (entries : list (pystr * json)) :
  lookup "type" entries = Some (JStr "mcpb") ->
  lookup "uri" entries <> None ->
  lookup "sha256" entries = None ->
  lookup "platforms" entries = Some (JList []) ->
  validate_package i (JDict entries) empty_diag
  = Ok {| errors := [package_msg i "MCPB package missing 'sha256' field";
                     package_msg i "MCPB package missing 'platforms' array"];
          warnings := [] |}.
Proof.
  intros T U S P.
  unfold validate_package, validate_mcpb, require_key, not_contains, contains,
    get, getitem.
  rewrite T, S, P. destruct (lookup "uri" entries); [reflexivity | congruence].
Qed.

(** C4. A package at index [i] of the ['packages'] sequence whose type
    is "mcpb", that has a ['uri'] key, no ['sha256'] key and an empty
    ['platforms'] sequence: the errors returned about that package are
    exactly the missing-['sha256'] error and the missing-['platforms']
    error, in that order, and none of them is about a platform. *)
Theorem mcpb_without_sha256_and_platforms (kvs : list (pystr * json))
    (errs warns : list pystr) (pkgs : list json) (i : nat)
    (entries : list (pystr * json)) :
  validate_server_json (JDict kvs) = Ok (errs, warns) ->
  lookup "packages" kvs = Some (JList pkgs) ->
  nth_error pkgs i = Some (JDict entries) ->
  lookup "type" entries = Some (JStr "mcpb") ->
  lookup "uri" entries <> None ->
  lookup "sha256" entries = None ->
  lookup "platforms" entries = Some (JList []) ->
  filter (refers_package i) errs
  = [package_msg i "MCPB package missing 'sha256' field";
     package_msg i "MCPB package missing 'platforms' array"]
  /\ forall pidx text, ~ In (platform_msg i pidx text) errs.
Proof.
  intros V L N T U S P.
  destruct (package_entry_messages kvs errs warns pkgs i _ V L N) as (c & Ec & Fe & _).
  rewrite (validate_package_mcpb_bare i entries T U S P) in Ec. inv_ok.
  cbn [errors] in Fe. split; [exact Fe|].
  intros pidx text H.
  assert (H' : In (platform_msg i pidx text) (filter (refers_package i) errs)).
  { apply filter_In. split; [exact H|].
    rewrite (refers_package_line i i) by constructor. apply Nat.eqb_refl. }
  rewrite Fe in H'. unfold platform_msg, package_msg in H'.
  destruct H' as [E|[E|[]]];
    apply append_inj_l, append_inj_l in E; discriminate E.
Qed.

Lemma validate_remote_graphql (i : nat) (entries : list (pystr * json)) :
  lookup "endpoint" entries <> None ->
  lookup "transport" entries = Some (JStr "graphql") ->
  validate_remote i (JDict entries) empty_diag
  = Ok {| errors := [];
          warnings := [remote_msg i "Unknown transport 'graphql'"] |}.
Proof.
  intros E T.
  unfold validate_remote, require_key, not_contains, contains, getitem.
  rewrite T. destruct (lookup "endpoint" entries); [reflexivity | congruence].
Qed.

(** C6. A remote at index [i] of the ['remotes'] sequence that has an
    ['endpoint'] key and whose ['transport'] is the string "graphql":
    the warnings returned about that remote are exactly the one
    unknown-transport warning naming 'graphql', and no returned error
    is about that remote. *)
Theorem graphql_remote (kvs : list (pystr * json)) (errs warns : list pystr)
    (remotes : list json) (i : nat) (entries : list (pystr * json)) :
  validate_server_json (JDict kvs) = Ok (errs, warns) ->
  lookup "remotes" kvs = Some (JList remotes) ->
  nth_error remotes i = Some (JDict entries) ->
  lookup "endpoint" entries <> None ->
  lookup "transport" entries = Some (JStr "graphql") ->
  filter (refers_remote i) warns = [remote_msg i "Unknown transport 'graphql'"]
  /\ filter (refers_remote i) errs = [].
Proof.
  intros V L N E T.
  destruct (remote_entry_messages kvs errs warns remotes i _ V L N)
    as (c & Ec & Fe & Fw).
  rewrite (validate_remote_graphql i entries E T) in Ec. inv_ok. auto.
Qed.

(** ** Presence by membership, presence by truth value *)

Lemma falsy_not_in_strs (v : json) (l : list pystr) :
  truthy v = false -> Forall (fun s => s <> []) l -> in_strs v l = false.
Proof.
  intros T F. unfold in_strs. induction F as [|s l Hs _ IH]; [reflexivity|].
  cbn [existsb]. rewrite IH, orb_false_r.
  destruct v as [| | | |t| |]; try reflexivity.
  destruct t; [|discriminate T]. cbn [eq_str].
  apply str_eqb_neq. congruence.
Qed.

Lemma validate_remote_falsy_transport (i : nat) (entries : list (pystr * json))
    (v : json) :
  lookup "transport" entries = Some v -> truthy v = false ->
  validate_remote i (JDict entries) empty_diag
  = Ok {| errors := match lookup "endpoint" entries with
                    | Some _ => []
                    | None => [remote_msg i "Missing 'endpoint' field"]
                    end;
          warnings := [remote_msg i ("Unknown transport '" ++ str v ++ "'")] |}.
Proof.
  intros L T.
  unfold validate_remote, require_key, not_contains, contains, getitem.
  rewrite L. cbn [bind negb].
  rewrite (falsy_not_in_strs v transports T)
    by (repeat constructor; discriminate).
  now destruct (lookup "endpoint" entries).
Qed.

Lemma validate_package_falsy_type (i : nat) (entries : list (pystr * json))
    (v : json) :
  lookup "type" entries = Some v -> truthy v = false ->
  validate_package i (JDict entries) empty_diag
  = Ok {| errors := [package_msg i "Missing 'type' field"]; warnings := [] |}.
Proof.
  intros L T. unfold validate_package, get. rewrite L. cbn [bind]. rewrite T.
  cbn [negb].
  assert (E : eq_str v "mcpb" = false).
  { pose proof (falsy_not_in_strs v ["mcpb"] T) as F. cbn in F.
    rewrite orb_false_r in F. apply F. repeat constructor; discriminate. }
  now rewrite E.
Qed.

(** C10. A remote whose ['transport'] key is bound to a falsy value gets
    the unknown-transport warning (and no other warning) and not the
    missing-['transport'] error; a package whose ['type'] key is bound
    to a falsy value gets the missing-['type'] error (and no other
    error) and no warning, so not the unknown-type one. *)
Theorem falsy_transport_and_type (kvs : list (pystr * json))
    (errs warns : list pystr) :
  validate_server_json (JDict kvs) = Ok (errs, warns) ->
  (forall remotes i entries v,
      lookup "remotes" kvs = Some (JList remotes) ->
      nth_error remotes i = Some (JDict entries) ->
      lookup "transport" entries = Some v ->
      truthy v = false ->
      filter (refers_remote i) warns
      = [remote_msg i ("Unknown transport '" ++ str v ++ "'")]
      /\ ~ In (remote_msg i "Missing 'transport' field") errs)
  /\ (forall pkgs i entries v,
         lookup "packages" kvs = Some (JList pkgs) ->
         nth_error pkgs i = Some (JDict entries) ->
         lookup "type" entries = Some v ->
         truthy v = false ->
         filter (refers_package i) errs = [package_msg i "Missing 'type' field"]
         /\ filter (refers_package i) warns = []).
Proof.
  intro V. split.
  - intros remotes i entries v L N T F.
    destruct (remote_entry_messages kvs errs warns remotes i _ V L N)
      as (c & Ec & Fe & Fw).
    rewrite (validate_remote_falsy_transport i entries v T F) in Ec. inv_ok.
    cbn [errors warnings] in Fe, Fw. split; [exact Fw|].
    intro H.
    assert (H' : In (remote_msg i "Missing 'transport' field")
                   (filter (refers_remote i) errs)).
    { apply filter_In. split; [exact H|].
      rewrite (refers_remote_line i i) by constructor. apply Nat.eqb_refl. }
    rewrite Fe in H'. unfold remote_msg in H'.
    destruct (lookup "endpoint" entries); [exact H'|].
    destruct H' as [E|[]].
    apply append_inj_l, append_inj_l in E. discriminate E.
  - intros pkgs i entries v L N T F.
    destruct (package_entry_messages kvs errs warns pkgs i _ V L N)
      as (c & Ec & Fe & Fw).
    rewrite (validate_package_falsy_type i entries v T F) in Ec. inv_ok. auto.
Qed.

(** ** A falsy ['packages'] or ['remotes'] *)

Lemma lookup_remove_same (key : pystr) (kvs : list (pystr * json)) :
  lookup key (remove_key key kvs) = None.
Proof.
  induction kvs as [|[k v] rest IH]; [reflexivity|]. cbn [remove_key].
  destruct (str_eqb key k) eqn:E; [exact IH|]. cbn [lookup]. now rewrite E.
Qed.

Lemma lookup_remove_other (key k : pystr) (kvs : list (pystr * json)) :
  k <> key -> lookup k (remove_key key kvs) = lookup k kvs.
Proof.
  intro N. induction kvs as [|[k' v] rest IH]; [reflexivity|]. cbn [remove_key lookup].
  destruct (str_eqb key k') eqn:E.
  - apply str_eqb_eq in E. subst k'.
    apply str_eqb_neq in N. now rewrite N.
  - cbn [lookup]. now rewrite IH.
Qed.

Lemma flat_map_same {A B : Type} (f g : A -> list B) (l : list A) :
  (forall x, In x l -> f x = g x) -> flat_map f l = flat_map g l.
Proof.
  induction l as [|x l IH]; intro E; [reflexivity|]. cbn [flat_map].
  rewrite (E x (or_introl eq_refl)), IH; [reflexivity|].
  intros y Hy. apply E. now right.
Qed.

Section SameElsewhere.

(** Two mappings that differ at most at [key]. *)
Variables (key : pystr) (kvs kvs' : list (pystr * json)).
Hypothesis elsewhere : forall k, k <> key -> lookup k kvs' = lookup k kvs.

Lemma required_rule_elsewhere :
  ~ In key required_fields ->
  for_each (check_required (JDict kvs')) required_fields empty_diag
  = for_each (check_required (JDict kvs)) required_fields empty_diag.
Proof.
  intro N. rewrite !required_rule_dict. do 2 f_equal.
  apply flat_map_same. intros f F. unfold required_error.
  rewrite elsewhere; [reflexivity | intros ->; now apply N].
Qed.

Lemma recommended_rule_elsewhere :
  ~ In key recommended_fields ->
  for_each (check_recommended (JDict kvs')) recommended_fields empty_diag
  = for_each (check_recommended (JDict kvs)) recommended_fields empty_diag.
Proof.
  intro N. rewrite !recommended_rule_dict. do 2 f_equal.
  apply flat_map_same. intros f F. unfold recommended_warning.
  rewrite elsewhere; [reflexivity | intros ->; now apply N].
Qed.

Lemma name_rule_elsewhere :
  "name" <> key ->
  check_name_format (JDict kvs') empty_diag = check_name_format (JDict kvs) empty_diag.
Proof. intro N. rewrite !name_rule_dict. now rewrite elsewhere. Qed.

Lemma repository_rule_elsewhere :
  "repository" <> key ->
  check_repository (JDict kvs') empty_diag = check_repository (JDict kvs) empty_diag.
Proof.
  intro N. rewrite !repository_rule_dict. unfold repository_diag.
  now rewrite elsewhere.
Qed.

Lemma has_deployment_elsewhere (k : pystr) :
  k <> key -> has_deployment (JDict kvs') k = has_deployment (JDict kvs) k.
Proof. intro N. unfold has_deployment, get, getitem. now rewrite elsewhere. Qed.

Lemma validate_entries_elsewhere (k : pystr) (h : json)
    (body : nat -> json -> diag -> result diag) (d : diag) :
  k <> key ->
  validate_entries h (JDict kvs') k body d = validate_entries h (JDict kvs) k body d.
Proof. intro N. unfold validate_entries, getitem. now rewrite elsewhere. Qed.

End SameElsewhere.

Lemma validate_entries_falsy (h config : json) (key : pystr)
    (body : nat -> json -> diag -> result diag) (d : diag) :
  truthy h = false -> validate_entries h config key body d = Ok d.
Proof. intro T. unfold validate_entries. now rewrite T. Qed.

Lemma validate_falsy_packages (kvs : list (pystr * json)) (v : json) :
  lookup "packages" kvs = Some v -> truthy v = false ->
  validate_server_json (JDict kvs)
  = validate_server_json (JDict (remove_key "packages" kvs)).
Proof.
  intros L T. unfold validate_server_json. f_equal. rewrite !validate_diag_rules.
  pose proof (fun k => lookup_remove_other "packages" k kvs) as E.
  rewrite (required_rule_elsewhere "packages" kvs _ E),
    (recommended_rule_elsewhere "packages" kvs _ E),
    (name_rule_elsewhere "packages" kvs _ E),
    (repository_rule_elsewhere "packages" kvs _ E),
    (has_deployment_elsewhere "packages" kvs _ E "remotes");
    try discriminate; try (cbn; intuition discriminate).
  rewrite (has_deployment_falsy kvs "packages" v L T).
  rewrite (has_deployment_absent _ "packages" (lookup_remove_same "packages" kvs)).
  destruct (for_each (check_required (JDict kvs)) required_fields empty_diag);
    cbn [bind]; [|reflexivity].
  destruct (check_name_format (JDict kvs) empty_diag); cbn [bind]; [|reflexivity].
  destruct (has_deployment (JDict kvs) "remotes") as [hr|e]; cbn [bind];
    [|reflexivity].
  rewrite !validate_entries_falsy by (exact T || reflexivity). cbn [bind].
  rewrite (validate_entries_elsewhere "packages" kvs _ E "remotes") by discriminate.
  unfold deployment_rule. now rewrite T.
Qed.

Lemma validate_falsy_remotes (kvs : list (pystr * json)) (v : json) :
  lookup "remotes" kvs = Some v -> truthy v = false ->
  validate_server_json (JDict kvs)
  = validate_server_json (JDict (remove_key "remotes" kvs)).
Proof.
  intros L T. unfold validate_server_json. f_equal. rewrite !validate_diag_rules.
  pose proof (fun k => lookup_remove_other "remotes" k kvs) as E.
  rewrite (required_rule_elsewhere "remotes" kvs _ E),
    (recommended_rule_elsewhere "remotes" kvs _ E),
    (name_rule_elsewhere "remotes" kvs _ E),
    (repository_rule_elsewhere "remotes" kvs _ E),
    (has_deployment_elsewhere "remotes" kvs _ E "packages");
    try discriminate; try (cbn; intuition discriminate).
  rewrite (has_deployment_falsy kvs "remotes" v L T).
  rewrite (has_deployment_absent _ "remotes" (lookup_remove_same "remotes" kvs)).
  destruct (for_each (check_required (JDict kvs)) required_fields empty_diag);
    cbn [bind]; [|reflexivity].
  destruct (check_name_format (JDict kvs) empty_diag); cbn [bind]; [|reflexivity].
  destruct (has_deployment (JDict kvs) "packages") as [hp|e]; cbn [bind];
    [|reflexivity].
  rewrite (validate_entries_elsewhere "remotes" kvs _ E "packages") by discriminate.
  destruct (validate_entries hp (JDict kvs) "packages" validate_package empty_diag);
    cbn [bind]; [|reflexivity].
  rewrite !validate_entries_falsy by (exact T || reflexivity). cbn [bind].
  unfold deployment_rule. now rewrite T.
Qed.

(** The falsy values a JSON document can hold. *)
Lemma falsy_values :
  Forall (fun v => truthy v = false)
    [JNull; JBool false; JInt 0; JFloat false "0.0"; JStr [];
     JList []; JDict []].
Proof. repeat constructor. Qed.

(** C9. When ['packages'] (or ['remotes']) is bound to a falsy value,
    the validator returns what it returns for the document without the
    key: the flag computed from the key is that falsy value, obtained
    without an exception, so the key counts as no deployment; and the
    loop over the entries is skipped, whatever its body. *)
Theorem falsy_deployment_as_absent (kvs : list (pystr * json)) (key : pystr)
    (v : json) :
  key = "packages" \/ key = "remotes" ->
  lookup key kvs = Some v ->
  truthy v = false ->
  validate_server_json (JDict kvs) = validate_server_json (JDict (remove_key key kvs))
  /\ has_deployment (JDict kvs) key = Ok v
  /\ (forall body d, validate_entries v (JDict kvs) key body d = Ok d).
Proof.
  intros K L T. split; [|split].
  - destruct K as [-> | ->];
      eauto using validate_falsy_packages, validate_falsy_remotes.
  - now apply has_deployment_falsy.
  - intros. now apply validate_entries_falsy.
Qed.

(** ** The reporter *)

(** *** What [print] writes *)


Lemma printed_app (a b : list pystr) :
  printed (a ++ b) = if forallb encodable a then a ++ printed b else printed a.
Proof.
  induction a as [|x a IH]; [reflexivity|]. cbn.
  destruct (encodable x); [|reflexivity]. cbn. rewrite IH.
  now destruct (forallb encodable a).
Qed.

Lemma printed_stops (a b : list pystr) :
  forallb encodable a = false -> printed (a ++ b) = printed a.
Proof. intro E. now rewrite printed_app, E. Qed.



(** *** The statements of [main], one by one *)
















(** *** A statement only adds to what is printed *)












(** *** The run *)



Lemma main_validator_raises (config : json) (e : exn) :
  validate_server_json config = Raise e ->
  main (Loaded config) = {| stdout := [banner]; outcome := Uncaught e |}.
Proof.
  intro V. unfold main, main_body, report, io_bind, print, eval. now rewrite V.
Qed.



(** ** Values of the wrong type *)

(** C2 on four mappings: a ['name'] that is a number, a package that is
    a string, a remote that is a number, and an MCPB package whose
    ['platforms'] is a number.  On each the validator raises instead of
    returning its two lists. *)
Theorem validate_raises_on_wrong_types :
  validate_server_json (JDict [("name", JInt 5)]) = Raise AttributeError
  /\ validate_server_json (JDict [("packages", JList [JStr "npm"])])
     = Raise AttributeError
  /\ validate_server_json (JDict [("remotes", JList [JInt 1])]) = Raise TypeError
  /\ validate_server_json
       (JDict [("packages",
                JList [JDict [("type", JStr "mcpb"); ("platforms", JInt 5)]])])
     = Raise TypeError.
Proof. repeat split; vm_compute; reflexivity. Qed.

Lemma for_enumerate_returns (body : nat -> json -> diag -> result diag)
    (l : list json) :
  (forall i x d, In x l -> raises (body i x d) = false) ->
  forall idx d, raises (for_enumerate body idx l d) = false.
Proof.
  induction l as [|x rest IH]; intros B idx d; [reflexivity|].
  cbn [for_enumerate]. pose proof (B idx x d (or_introl eq_refl)) as R.
  destruct (body idx x d) as [d'|e]; [|discriminate R]. cbn [bind].
  apply IH. intros i y d0 Hy. apply B. now right.
Qed.

Lemma require_key_dict (entries : list (pystr * json)) (key msg : pystr) (d : diag) :
  raises (require_key (JDict entries) key msg d) = false.
Proof. reflexivity. Qed.

Lemma validate_platform_returns (idx pidx : nat) (platform : json) (d : diag) :
  isinstance_dict platform = true ->
  raises (validate_platform idx pidx platform d) = false.
Proof. destruct platform; try discriminate. reflexivity. Qed.

Lemma validate_package_returns (idx : nat) (package : json) (d : diag) :
  typed_package package = true ->
  raises (validate_package idx package d) = false.
Proof.
  destruct package as [| | | | | |entries]; try discriminate.
  unfold typed_package, validate_package, get. cbn [bind]. intro T.
  destruct (eq_str _ "mcpb"); [|reflexivity].
  unfold validate_mcpb, require_key, not_contains, contains, getitem. cbn [bind].
  destruct (lookup "platforms" entries) as [p|]; cbn [bind negb]; [|reflexivity].
  destruct (truthy p); cbn [bind negb]; [|reflexivity].
  destruct p as [| | | | |platforms|]; try discriminate T. cbn [iter bind].
  apply for_enumerate_returns. intros i x d0 Hx.
  apply validate_platform_returns.
  cbn in T. rewrite forallb_forall in T. now apply T.
Qed.

Lemma validate_remote_returns (idx : nat) (remote : json) (d : diag) :
  isinstance_dict remote = true -> raises (validate_remote idx remote d) = false.
Proof.
  destruct remote as [| | | | | |entries]; try discriminate. intros _.
  unfold validate_remote, require_key, not_contains, contains, getitem. cbn [bind].
  destruct (lookup "transport" entries) as [t|]; cbn [bind negb]; [|reflexivity].
  now destruct (negb (in_strs t transports)).
Qed.

Lemma entries_return (kvs : list (pystr * json)) (key : pystr)
    (body : nat -> json -> diag -> result diag) (p : json -> bool) :
  (forall i x d, p x = true -> raises (body i x d) = false) ->
  absent_or (list_of p) (lookup key kvs) = true ->
  exists h, has_deployment (JDict kvs) key = Ok h
            /\ forall d, raises (validate_entries h (JDict kvs) key body d) = false.
Proof.
  intros B T. unfold has_deployment, validate_entries, get, getitem.
  destruct (lookup key kvs) as [v|]; cbn [bind].
  - destruct v as [| | | | |items|]; try discriminate T.
    destruct items as [|x items]; cbn [truthy List.length Nat.eqb negb bind len].
    + exists (JList []). split; reflexivity.
    + exists (JBool true). split; [reflexivity|]. intro d. cbn [truthy iter bind].
      apply for_enumerate_returns. intros i y d0 Hy. apply B.
      cbn [absent_or list_of] in T. rewrite forallb_forall in T. now apply T.
  - exists JNull. split; reflexivity.
Qed.

(** On a document of the data model the validator returns its lists:
    for it to raise, a field must hold a value of another type than
    the model gives it. *)
Lemma validate_returns_on_typed (kvs : list (pystr * json)) :
  typed_document kvs = true -> raises (validate_server_json (JDict kvs)) = false.
Proof.
  unfold typed_document. intro T.
  apply andb_prop in T as [T R]. apply andb_prop in T as [N P].
  unfold validate_server_json. rewrite validate_diag_rules.
  rewrite required_rule_dict, name_rule_dict, recommended_rule_dict,
    repository_rule_dict.
  destruct (entries_return kvs "packages" validate_package typed_package
              validate_package_returns P) as (hp & -> & Hp).
  destruct (entries_return kvs "remotes" validate_remote isinstance_dict
              validate_remote_returns R) as (hr & -> & Hr).
  specialize (Hp empty_diag). specialize (Hr empty_diag).
  destruct (lookup "name" kvs) as [[| | | | name | |]|]; try discriminate N;
    cbn [bind];
    (destruct (validate_entries hp (JDict kvs) "packages" validate_package
                 empty_diag) as [d4|e]; [|discriminate Hp]);
    (destruct (validate_entries hr (JDict kvs) "remotes" validate_remote
                 empty_diag) as [d5|e]; [|discriminate Hr]);
    reflexivity.
Qed.

(** ** Recommended fields and the repository *)

Lemma recommended_warnings_exact (kvs : list (pystr * json))
    (errs warns : list pystr) :
  validate_server_json (JDict kvs) = Ok (errs, warns) ->
  filter is_recommended_line warns
  = flat_map (recommended_warning kvs) recommended_fields.
Proof.
  intro V. destruct (validate_anatomy _ _ _ V).
  pose proof (name_part_lines _ _ name_rule) as NL.
  rewrite !filter_app.
  rewrite (filter_all is_recommended_line (flat_map _ _)).
  - rewrite (filter_shape _ name_line name_part),
      (filter_shape _ any_package_line (warnings packages_part)),
      (filter_shape _ any_remote_line (warnings remotes_part)),
      (filter_shape _ repository_line (warnings (repository_diag kvs))).
    + now rewrite !app_nil_r.
    + now intros ? [].
    + apply repository_lines.
    + now intros ? [j []].
    + eapply remote_part_lines; eassumption.
    + now intros ? [j []].
    + eapply package_part_lines; eassumption.
    + now intros ? [].
    + exact NL.
  - eapply Forall_impl; [|apply recommended_part_lines].
    intros m [field]. unfold is_recommended_line, missing_recommended.
    apply prefix_append.
Qed.

(** X1. For each of ['license'], ['homepage'], ['repository'], the
    returned warnings contain "Recommended field missing: <field>"
    exactly when the key is absent; a key bound to any value, [null] or
    empty included, gives no such warning. *)
Theorem recommended_field_warnings (kvs : list (pystr * json))
    (errs warns : list pystr) (field : pystr) :
  validate_server_json (JDict kvs) = Ok (errs, warns) ->
  In field recommended_fields ->
  In (missing_recommended field) warns <-> lookup field kvs = None.
Proof.
  intros V F.
  assert (I : In (missing_recommended field) warns
              <-> In (missing_recommended field)
                    (flat_map (recommended_warning kvs) recommended_fields)).
  { rewrite <- (recommended_warnings_exact kvs errs warns V), filter_In.
    unfold is_recommended_line, missing_recommended at 3.
    rewrite prefix_append. tauto. }
  rewrite I. clear I V.
  unfold recommended_fields, recommended_warning in *. cbn [flat_map].
  destruct F as [<-|[<-|[<-|[]]]];
    destruct (lookup "license" kvs), (lookup "homepage" kvs),
      (lookup "repository" kvs);
    cbn; intuition (try discriminate; try congruence).
Qed.

Lemma repository_messages_exact (kvs : list (pystr * json))
    (errs warns : list pystr) :
  validate_server_json (JDict kvs) = Ok (errs, warns) ->
  filter is_repository_line errs = errors (repository_diag kvs)
  /\ filter is_repository_line warns = warnings (repository_diag kvs).
Proof.
  intro V. destruct (validate_anatomy _ _ _ V).
  pose proof (name_part_lines _ _ name_rule) as NL.
  pose proof (repository_lines kvs) as [RE RW].
  pose proof (package_part_lines _ _ _ packages_rule) as [PE PW].
  pose proof (remote_part_lines _ _ _ remotes_rule) as [ME MW].
  assert (O : forall l, Forall repository_line l -> filter is_repository_line l = l).
  { intros l F. apply filter_all. eapply Forall_impl; [|exact F]. now intros ? []. }
  rewrite !filter_app, (O _ RE), (O _ RW).
  rewrite (filter_shape _ required_line (flat_map _ _)),
    (filter_shape _ deployment_line (errors (deployment_rule _ _))),
    (filter_shape _ any_package_line (errors packages_part)),
    (filter_shape _ any_remote_line (errors remotes_part)),
    (filter_shape _ name_line name_part),
    (filter_shape _ any_package_line (warnings packages_part)),
    (filter_shape _ any_remote_line (warnings remotes_part)),
    (filter_shape _ recommended_line (flat_map _ _));
    try (now split);
    try assumption;
    try apply recommended_part_lines;
    try apply deployment_rule_lines;
    try apply required_part_lines;
    try (now intros ? []);
    try (now intros ? [j []]).
Qed.

(** X2. The repository rule: "Repository must be an object" is a
    returned error exactly when ['repository'] is bound to a value that
    is not a mapping; "Repository missing 'type' field" (and likewise
    ['url']) is a returned warning exactly when ['repository'] is a
    mapping without that key.  An absent ['repository'] gives neither. *)
Theorem repository_shape (kvs : list (pystr * json)) (errs warns : list pystr) :
  validate_server_json (JDict kvs) = Ok (errs, warns) ->
  (In "Repository must be an object" errs
   <-> exists v, lookup "repository" kvs = Some v /\ isinstance_dict v = false)
  /\ (In "Repository missing 'type' field" warns
      <-> exists repo, lookup "repository" kvs = Some (JDict repo)
                       /\ lookup "type" repo = None)
  /\ (In "Repository missing 'url' field" warns
      <-> exists repo, lookup "repository" kvs = Some (JDict repo)
                       /\ lookup "url" repo = None).
Proof.
  intro V. destruct (repository_messages_exact kvs errs warns V) as [E W].
  assert (IE : forall m, is_repository_line m = true ->
                         In m errs <-> In m (errors (repository_diag kvs)))
    by (intros m R; rewrite <- E, filter_In; tauto).
  assert (IW : forall m, is_repository_line m = true ->
                         In m warns <-> In m (warnings (repository_diag kvs)))
    by (intros m R; rewrite <- W, filter_In; tauto).
  rewrite (IE "Repository must be an object" eq_refl),
    (IW "Repository missing 'type' field" eq_refl),
    (IW "Repository missing 'url' field" eq_refl).
  clear. unfold repository_diag.
  destruct (lookup "repository" kvs) as [v|].
  2: { cbn. repeat split; try contradiction; intros (x & E & _); discriminate E. }
  destruct v as [| | | | | |repo];
    try (cbn; split;
         [split; [intros _; eexists; split; reflexivity | intros _; now left]
         |split; (split; [intros [] | intros (x & E & _); discriminate E])]).
  cbn [errors warnings]. split; [|split].
  - split; [intros [] | intros (x & E & H); inversion E; subst; discriminate H].
  - destruct (lookup "type" repo) eqn:T, (lookup "url" repo) eqn:U; cbn; split;
      try (intros _; eexists; split; [reflexivity | assumption]);
      try (intros (x & E & H); inversion E; subst; congruence);
      try (intros _; auto; fail);
      intros H; intuition discriminate.
  - destruct (lookup "type" repo) eqn:T, (lookup "url" repo) eqn:U; cbn; split;
      try (intros _; eexists; split; [reflexivity | assumption]);
      try (intros (x & E & H); inversion E; subst; congruence);
      try (intros _; auto; fail);
      intros H; intuition discriminate.
Qed.

(** ** The entry rules in full *)

Lemma validate_remote_dict (i : nat) (entries : list (pystr * json)) :
  validate_remote i (JDict entries) empty_diag
  = Ok {| errors := remote_errors i entries; warnings := remote_warnings i entries |}.
Proof.
  unfold validate_remote, require_key, not_contains, contains, getitem,
    remote_errors, remote_warnings, absent_msg.
  destruct (lookup "endpoint" entries), (lookup "transport" entries) as [t|];
    cbn [bind negb]; try reflexivity;
    destruct (in_strs t transports); reflexivity.
Qed.

(** X3. A remote that is a mapping, at index [i] of the ['remotes']
    sequence: the returned errors about it are the missing-['endpoint']
    error when it has no ['endpoint'] key, then the missing-['transport']
    error when it has no ['transport'] key; the returned warnings about
    it are the unknown-transport warning when ['transport'] is bound to
    anything but "streamable-http" or "sse", and nothing otherwise. *)
Theorem remote_rule (kvs : list (pystr * json)) (errs warns : list pystr)
    (remotes : list json) (i : nat) (entries : list (pystr * json)) :
  validate_server_json (JDict kvs) = Ok (errs, warns) ->
  lookup "remotes" kvs = Some (JList remotes) ->
  nth_error remotes i = Some (JDict entries) ->
  filter (refers_remote i) errs = remote_errors i entries
  /\ filter (refers_remote i) warns = remote_warnings i entries.
Proof.
  intros V L N.
  destruct (remote_entry_messages kvs errs warns remotes i _ V L N)
    as (c & Ec & Fe & Fw).
  rewrite validate_remote_dict in Ec. inv_ok. auto.
Qed.

Lemma validate_package_plain (i : nat) (entries : list (pystr * json)) :
  eq_str (get_or_null entries "type") "mcpb" = false ->
  validate_package i (JDict entries) empty_diag
  = Ok {| errors := type_errors i (get_or_null entries "type");
          warnings := type_warnings i (get_or_null entries "type") |}.
Proof.
  intro M. unfold validate_package, get, type_errors, type_warnings.
  fold (get_or_null entries "type"). cbn [bind]. rewrite M.
  destruct (truthy (get_or_null entries "type")); cbn [negb andb]; [|reflexivity].
  now destruct (in_strs (get_or_null entries "type") package_types).
Qed.

(** X4. A package that is a mapping, at index [i] of the ['packages']
    sequence, whose ['type'] is not "mcpb": the only returned error
    about it is the missing-['type'] error, when the key is absent or
    bound to a falsy value; the only returned warning about it is the
    unknown-type warning, when the type is truthy and not one of "npm",
    "pypi", "mcpb", "docker", "nuget".  Its other keys are not looked
    at. *)
Theorem package_type_rule (kvs : list (pystr * json)) (errs warns : list pystr)
    (pkgs : list json) (i : nat) (entries : list (pystr * json)) :
  validate_server_json (JDict kvs) = Ok (errs, warns) ->
  lookup "packages" kvs = Some (JList pkgs) ->
  nth_error pkgs i = Some (JDict entries) ->
  eq_str (get_or_null entries "type") "mcpb" = false ->
  filter (refers_package i) errs = type_errors i (get_or_null entries "type")
  /\ filter (refers_package i) warns = type_warnings i (get_or_null entries "type").
Proof.
  intros V L N M.
  destruct (package_entry_messages kvs errs warns pkgs i _ V L N)
    as (c & Ec & Fe & Fw).
  rewrite (validate_package_plain i entries M) in Ec. inv_ok. auto.
Qed.

Lemma validate_platform_dict (idx pidx : nat) (platform : list (pystr * json)) :
  validate_platform idx pidx (JDict platform) empty_diag
  = Ok {| errors := platform_errors idx pidx platform; warnings := [] |}.
Proof.
  unfold validate_platform, require_key, not_contains, contains, platform_errors,
    absent_msg.
  destruct (lookup "os" platform), (lookup "arch" platform),
    (lookup "uri" platform), (lookup "sha256" platform); reflexivity.
Qed.

Lemma validate_platforms_dicts (idx : nat) (platforms : list json) :
  forallb isinstance_dict platforms = true ->
  forall start,
    for_enumerate (validate_platform idx) start platforms empty_diag
    = Ok {| errors :=
              flat_map (fun px => match snd px with
                                  | JDict platform =>
                                      platform_errors idx (fst px) platform
                                  | _ => []
                                  end)
                (enumerate_from start platforms);
            warnings := [] |}.
Proof.
  induction platforms as [|p rest IH]; intros D start; [reflexivity|].
  cbn [forallb] in D. apply andb_prop in D as [Dp Dr].
  destruct p as [| | | | | |platform]; try discriminate Dp.
  cbn [for_enumerate enumerate_from flat_map fst snd].
  rewrite validate_platform_dict. cbn [bind].
  rewrite (framed_for_enumerate (validate_platform idx) rest
             (framed_validate_platform idx) (S start)).
  rewrite (IH Dr (S start)). cbn [bind]. unfold extend. cbn [errors warnings].
  reflexivity.
Qed.

Lemma validate_package_mcpb (i : nat) (entries : list (pystr * json)) :
  lookup "type" entries = Some (JStr "mcpb") ->
  typed_package (JDict entries) = true ->
  validate_package i (JDict entries) empty_diag
  = Ok {| errors := mcpb_errors i entries; warnings := [] |}.
Proof.
  intros T P. unfold validate_package, get. rewrite T. cbn [bind].
  change (truthy (JStr "mcpb")) with true.
  change (in_strs (JStr "mcpb") package_types) with true.
  change (eq_str (JStr "mcpb") "mcpb") with true. cbn [negb].
  unfold validate_mcpb, require_key, not_contains, contains, getitem, mcpb_errors,
    absent_msg, platforms_errors.
  unfold typed_package, absent_or in P.
  destruct (lookup "platforms" entries) as [p|].
  - destruct p as [| | | | |ps|]; try discriminate P. cbn [list_of] in P.
    destruct ps as [|p ps].
    + destruct (lookup "uri" entries), (lookup "sha256" entries); reflexivity.
    + destruct (lookup "uri" entries), (lookup "sha256" entries);
        cbn [bind negb truthy List.length Nat.eqb iter];
        rewrite (framed_for_enumerate (validate_platform i) (p :: ps)
                   (framed_validate_platform i) 0);
        rewrite (validate_platforms_dicts i (p :: ps) P 0); reflexivity.
  - destruct (lookup "uri" entries), (lookup "sha256" entries); reflexivity.
Qed.

(** X5. An MCPB package at index [i] of the ['packages'] sequence whose
    ['platforms'], when present, is a list of mappings: the returned
    errors about it are, in order, the missing-['uri'] error and the
    missing-['sha256'] error when the key is absent, then either the
    missing-['platforms'] error, when ['platforms'] is absent or empty,
    or, for each platform in turn, one error for each of ['os'],
    ['arch'], ['uri'], ['sha256'] it has no key for; there is no
    returned warning about it. *)
Theorem mcpb_rule (kvs : list (pystr * json)) (errs warns : list pystr)
    (pkgs : list json) (i : nat) (entries : list (pystr * json)) :
  validate_server_json (JDict kvs) = Ok (errs, warns) ->
  lookup "packages" kvs = Some (JList pkgs) ->
  nth_error pkgs i = Some (JDict entries) ->
  lookup "type" entries = Some (JStr "mcpb") ->
  typed_package (JDict entries) = true ->
  filter (refers_package i) errs = mcpb_errors i entries
  /\ filter (refers_package i) warns = [].
Proof.
  intros V L N T P.
  destruct (package_entry_messages kvs errs warns pkgs i _ V L N)
    as (c & Ec & Fe & Fw).
  rewrite (validate_package_mcpb i entries T P) in Ec. inv_ok. auto.
Qed.

(** ** Documents that are not a mapping *)

Lemma validate_non_mapping_raises (config : json) :
  isinstance_dict config = false -> exists e, validate_server_json config = Raise e.
Proof.
  destruct config as [| | | |s|items|]; try discriminate; intros _;
    try (eexists; reflexivity);
    unfold validate_server_json, validate_diag, required_fields;
    cbn [for_each]; unfold check_required, check_name_format, has_deployment,
      not_contains, contains, getitem, get; cbn [bind].
  - destruct (str_contains "name" s) eqn:N; cbn [bind negb];
      [eexists; reflexivity|].
    destruct (str_contains "version" s); cbn [bind negb]; [eexists; reflexivity|].
    destruct (str_contains "description" s); cbn [bind negb];
      eexists; reflexivity.
  - destruct (existsb (fun x => eq_str x "name") items) eqn:N; cbn [bind negb];
      [eexists; reflexivity|].
    destruct (existsb (fun x => eq_str x "version") items); cbn [bind negb];
      [eexists; reflexivity|].
    destruct (existsb (fun x => eq_str x "description") items); cbn [bind negb];
      eexists; reflexivity.
Qed.

(** X6. A document that is not a mapping (a list, a string, a number,
    a boolean or [null] at the top level) is not reported on: the
    validator raises, whatever the value holds, and the run prints the
    banner only and ends on the uncaught exception, with exit status
    1. *)
Theorem non_mapping_document (config : json) :
  isinstance_dict config = false ->
  exists e,
    validate_server_json config = Raise e
    /\ main (Loaded config) = {| stdout := [banner]; outcome := Uncaught e |}
    /\ exit_status (main (Loaded config)) = 1%Z.
Proof.
  intro D. destruct (validate_non_mapping_raises config D) as [e V].
  exists e. rewrite (main_validator_raises config e V). auto.
Qed.

(** ** Documents of the data model *)

(** X7. On a mapping whose ['name'], when present, is a str, whose
    ['packages'], when present, is a list of mappings with
    ['platforms'], when present, a list of mappings, and whose
    ['remotes'], when present, is a list of mappings, the validator
    returns its two lists: no value of the other fields, whatever its
    type, makes it raise. *)
Theorem validator_returns_on_data_model (kvs : list (pystr * json)) :
  typed_document kvs = true ->
  exists errs warns, validate_server_json (JDict kvs) = Ok (errs, warns).
Proof.
  intro T. pose proof (validate_returns_on_typed kvs T) as R.
  destruct (validate_server_json (JDict kvs)) as [[errs warns]|e];
    [eauto | discriminate R].
Qed.

(** ** Keys the validator does not read *)

(** X8. A top-level key other than ['name'], ['version'],
    ['description'], ['packages'], ['remotes'], ['license'],
    ['homepage'], ['repository'] has no effect: the validator returns
    (or raises) the same with the key removed. *)
Theorem unknown_key_ignored (kvs : list (pystr * json)) (key : pystr) :
  ~ In key validator_keys ->
  validate_server_json (JDict kvs) = validate_server_json (JDict (remove_key key kvs)).
Proof.
  intro N. unfold validator_keys in N. cbn [In] in N.
  unfold validate_server_json. f_equal. rewrite !validate_diag_rules.
  pose proof (fun k => lookup_remove_other key k kvs) as E.
  rewrite (required_rule_elsewhere key kvs _ E),
    (recommended_rule_elsewhere key kvs _ E),
    (name_rule_elsewhere key kvs _ E),
    (repository_rule_elsewhere key kvs _ E),
    (has_deployment_elsewhere key kvs _ E "packages"),
    (has_deployment_elsewhere key kvs _ E "remotes");
    try (cbn; intuition congruence).
  destruct (for_each (check_required (JDict kvs)) required_fields empty_diag);
    cbn [bind]; [|reflexivity].
  destruct (check_name_format (JDict kvs) empty_diag); cbn [bind]; [|reflexivity].
  destruct (has_deployment (JDict kvs) "packages") as [hp|e]; cbn [bind];
    [|reflexivity].
  destruct (has_deployment (JDict kvs) "remotes") as [hr|e]; cbn [bind];
    [|reflexivity].
  rewrite (validate_entries_elsewhere key kvs _ E "packages"),
    (validate_entries_elsewhere key kvs _ E "remotes");
    solve [reflexivity | intuition congruence].
Qed.

(** ** Nothing else is ever reported *)

Lemma sorted_empty (PE PW : pystr -> Prop) : sorted_lines PE PW empty_diag.
Proof. split; constructor. Qed.

Lemma sorted_extend (PE PW : pystr -> Prop) (d c : diag) :
  sorted_lines PE PW d -> sorted_lines PE PW c -> sorted_lines PE PW (extend d c).
Proof. intros [E W] [E' W']; split; cbn; apply Forall_app; auto. Qed.

Lemma sorted_impl (PE PW QE QW : pystr -> Prop) (d : diag) :
  (forall m, PE m -> QE m) -> (forall m, PW m -> QW m) ->
  sorted_lines PE PW d -> sorted_lines QE QW d.
Proof. intros IE IW [E W]; split; eapply Forall_impl; eauto. Qed.

Lemma sorted_error (PE PW : pystr -> Prop) (m : pystr) (d : diag) :
  PE m -> sorted_lines PE PW d -> sorted_lines PE PW (error_append m d).
Proof. intros Pm [E W]; split; cbn; auto. apply Forall_app; auto. Qed.

Lemma sorted_warning (PE PW : pystr -> Prop) (m : pystr) (d : diag) :
  PW m -> sorted_lines PE PW d -> sorted_lines PE PW (warning_append m d).
Proof. intros Pm [E W]; split; cbn; auto. apply Forall_app; auto. Qed.

Lemma sorts_require_key (PE PW : pystr -> Prop) (obj : json) (key msg : pystr) :
  PE msg -> sorts PE PW (require_key obj key msg).
Proof.
  intros Pm d d' A. unfold require_key.
  destruct (not_contains key obj) as [[|]|e]; cbn [bind]; intro; inv_ok;
    auto using sorted_error.
Qed.

Lemma sorts_seq (PE PW : pystr -> Prop) (f g : diag -> result diag) :
  sorts PE PW f -> sorts PE PW g -> sorts PE PW (fun d => d' <- f d ;; g d').
Proof.
  intros F G d d' A. destruct (f d) as [c|e] eqn:E; cbn [bind]; [|discriminate].
  intro H. exact (G _ _ (F _ _ A E) H).
Qed.

Lemma sorts_for_enumerate (PE PW : pystr -> Prop)
    (body : nat -> json -> diag -> result diag) (l : list json) :
  (forall i x, sorts PE PW (body i x)) ->
  forall idx, sorts PE PW (for_enumerate body idx l).
Proof.
  intro B. induction l as [|x rest IH]; intros idx d d' A; cbn [for_enumerate].
  - intro; inv_ok; auto.
  - apply (sorts_seq PE PW (body idx x) (for_enumerate body (S idx) rest)); auto.
Qed.

Lemma sorts_validate_platform (idx pidx : nat) (platform : json) :
  sorts (package_error idx) (package_warning idx)
    (validate_platform idx pidx platform).
Proof.
  unfold validate_platform.
  repeat (apply (sorts_seq _ _ (require_key _ _ _));
          [apply sorts_require_key; apply package_error_platform; simpl; auto 10|]).
  apply sorts_require_key; apply package_error_platform; simpl; auto 10.
Qed.

Lemma sorts_validate_mcpb (idx : nat) (package : json) :
  sorts (package_error idx) (package_warning idx) (validate_mcpb idx package).
Proof.
  unfold validate_mcpb.
  repeat (apply (sorts_seq _ _ (require_key _ _ _));
          [apply sorts_require_key; apply package_error_msg; simpl; auto 10|]).
  intros d d' A.
  destruct (not_contains "platforms" package) as [no_platforms|e];
    cbn [bind]; [|discriminate].
  destruct (if no_platforms then Ok true
            else p <- getitem package "platforms" ;; Ok (negb (truthy p)))
    as [[|]|e]; cbn [bind]; [| |discriminate].
  - intro; inv_ok.
    apply sorted_error; [apply package_error_msg; simpl; auto 10 | assumption].
  - destruct (getitem package "platforms") as [p|e]; cbn [bind]; [|discriminate].
    destruct (iter p) as [platforms|e]; cbn [bind]; [|discriminate].
    apply sorts_for_enumerate; [|assumption].
    intros; apply sorts_validate_platform.
Qed.

Lemma sorts_validate_package (idx : nat) (package : json) :
  sorts (package_error idx) (package_warning idx) (validate_package idx package).
Proof.
  intros d d' A. unfold validate_package.
  destruct (get package "type" JNull) as [pkg_type|e]; cbn [bind]; [|discriminate].
  assert (A' : sorted_lines (package_error idx) (package_warning idx)
                 (if negb (truthy pkg_type)
                  then error_append (package_msg idx "Missing 'type' field") d
                  else if negb (in_strs pkg_type package_types)
                  then warning_append
                         (package_msg idx
                            ("Unknown package type '" ++ str pkg_type ++ "'")) d
                  else d)).
  { destruct (truthy pkg_type) eqn:T; cbn [negb].
    - destruct (in_strs pkg_type package_types) eqn:I; cbn [negb]; [assumption|].
      apply sorted_warning; [now constructor | assumption].
    - apply sorted_error; [apply package_error_msg; simpl; auto 10 | assumption]. }
  destruct (eq_str pkg_type "mcpb").
  - apply sorts_validate_mcpb; assumption.
  - intro; inv_ok; assumption.
Qed.

Lemma sorts_validate_remote (idx : nat) (remote : json) :
  sorts (remote_error idx) (remote_warning idx) (validate_remote idx remote).
Proof.
  unfold validate_remote.
  apply (sorts_seq _ _ (require_key _ _ _));
    [apply sorts_require_key; constructor; simpl; auto|].
  intros d d' A.
  destruct (not_contains "transport" remote) as [[|]|e]; cbn [bind];
    [| |discriminate].
  - intro; inv_ok. apply sorted_error; [constructor; simpl; auto | assumption].
  - destruct (getitem remote "transport") as [t|e] eqn:G; cbn [bind]; [|discriminate].
    destruct (in_strs t transports) eqn:I; cbn [negb]; [intro; inv_ok; assumption|].
    intro; inv_ok. apply sorted_warning; [now constructor | assumption].
Qed.

(** The messages of a loop over [l] from index [start] are about the
    entries it visits. *)
Lemma for_enumerate_sorted (PE PW : nat -> pystr -> Prop)
    (body : nat -> json -> diag -> result diag) (l : list json) :
  (forall i x, framed (body i x)) ->
  (forall i x, sorts (PE i) (PW i) (body i x)) ->
  forall start d,
    for_enumerate body start l empty_diag = Ok d ->
    sorted_lines (fun m => exists j, start <= j < start + List.length l /\ PE j m)
      (fun m => exists j, start <= j < start + List.length l /\ PW j m) d.
Proof.
  intros F B. induction l as [|x rest IH]; intros start d E.
  - cbn in E. inv_ok. apply sorted_empty.
  - apply (for_enumerate_cons body F) in E as (c & r & Ec & Er & ->).
    apply sorted_extend.
    + apply (sorted_impl (PE start) (PW start));
        [| |exact (B start x _ _ (sorted_empty _ _) Ec)];
        intros m H; exists start; cbn [List.length]; split; (lia || assumption).
    + eapply sorted_impl; [| |exact (IH (S start) r Er)];
        intros m (j & L & H); exists j; cbn [List.length]; split; (lia || assumption).
Qed.

Lemma entries_sorted (PE PW : nat -> pystr -> Prop)
    (body : nat -> json -> diag -> result diag)
    (kvs : list (pystr * json)) (key : pystr) (h : json) (d : diag) :
  (forall i x, framed (body i x)) ->
  (forall i x, sorts (PE i) (PW i) (body i x)) ->
  validate_entries h (JDict kvs) key body empty_diag = Ok d ->
  sorted_lines (fun m => exists j, j < entry_count kvs key /\ PE j m)
    (fun m => exists j, j < entry_count kvs key /\ PW j m) d.
Proof.
  intros F B E. apply validate_entries_inv in E as [[_ ->]|(_ & c & l & G & I & E)].
  - apply sorted_empty.
  - unfold getitem in G. unfold entry_count.
    destruct (lookup key kvs) as [v|]; [|discriminate G]. inv_ok. rewrite I.
    eapply sorted_impl; [| |exact (for_enumerate_sorted PE PW body l F B 0 d E)];
      intros m (j & L & H); exists j; split; (lia || assumption).
Qed.

Lemma has_truthy_lookup (kvs : list (pystr * json)) (key : pystr) :
  has_truthy kvs key = match lookup key kvs with Some v => truthy v | None => false end.
Proof. unfold has_truthy, get_or_null. now destruct (lookup key kvs). Qed.

(** Every message the validator returns for a mapping is one a rule can
    append for it. *)
Lemma validate_messages (kvs : list (pystr * json)) (errs warns : list pystr) :
  validate_server_json (JDict kvs) = Ok (errs, warns) ->
  Forall (error_message kvs) errs /\ Forall (warning_message kvs) warns.
Proof.
  intro V. destruct (validate_anatomy _ _ _ V).
  pose proof (entries_sorted package_error package_warning validate_package
                kvs "packages" _ _ framed_validate_package sorts_validate_package
                packages_rule) as [PE PW].
  pose proof (entries_sorted remote_error remote_warning validate_remote
                kvs "remotes" _ _ framed_validate_remote sorts_validate_remote
                remotes_rule) as [RE RW].
  pose proof (has_deployment_dict kvs _ _ packages_flag) as HP.
  pose proof (has_deployment_dict kvs _ _ remotes_flag) as HR.
  rewrite <- has_truthy_lookup in HP, HR.
  rewrite name_rule_dict in name_rule.
  split.
  - apply Forall_app; split.
    { unfold required_fields, required_error. cbn [flat_map].
      repeat (apply Forall_app; split); try apply Forall_nil;
        match goal with |- context [lookup ?f kvs] =>
          destruct (lookup f kvs) as [v|] eqn:L;
          [destruct (truthy v) eqn:T|] end;
        one_message;
        solve [ apply (error_empty kvs _ v); simpl; auto
              | apply error_missing; simpl; auto ]. }
    apply Forall_app; split.
    { unfold deployment_rule.
      destruct (truthy has_packages), (truthy has_remotes); cbn;
        one_message. apply error_deployment; congruence. }
    apply Forall_app; split.
    { eapply Forall_impl; [|exact PE]. intros m (j & L & H).
      now apply (error_package kvs j). }
    apply Forall_app; split.
    { eapply Forall_impl; [|exact RE]. intros m (j & L & H).
      now apply (error_remote kvs j). }
    unfold repository_diag.
    destruct (lookup "repository" kvs) as [v|] eqn:L; [|constructor].
    destruct v; cbn; one_message; now apply (error_repository kvs _ L).
  - apply Forall_app; split.
    { destruct (lookup "name" kvs) as [[| | | | name | |]|] eqn:L; inv_ok;
        try apply Forall_nil.
      unfold name_warnings. apply Forall_app; split.
      - destruct (negb (str_prefix "io.github." name)
                  && negb (str_prefix "com." name));
          one_message. now apply warning_namespace.
      - destruct (negb (str_contains "/" name)); one_message.
        now apply warning_slash. }
    apply Forall_app; split.
    { eapply Forall_impl; [|exact PW]. intros m (j & L & H).
      now apply (warning_package kvs j). }
    apply Forall_app; split.
    { eapply Forall_impl; [|exact RW]. intros m (j & L & H).
      now apply (warning_remote kvs j). }
    apply Forall_app; split.
    { unfold recommended_fields, recommended_warning. cbn [flat_map].
      repeat (apply Forall_app; split); try apply Forall_nil;
        match goal with |- context [lookup ?f kvs] =>
          destruct (lookup f kvs) eqn:L end;
        one_message; apply warning_recommended; simpl; auto. }
    unfold repository_diag.
    destruct (lookup "repository" kvs) as [v|] eqn:L; [|constructor].
    destruct v as [| | | | | |repo]; cbn; try apply Forall_nil.
    apply Forall_app; split.
    + destruct (lookup "type" repo) eqn:T; one_message.
      now apply (warning_repository_type kvs repo).
    + destruct (lookup "url" repo) eqn:U; one_message.
      now apply (warning_repository_url kvs repo).
Qed.

(** X9. Whatever the mapping, every returned error is one of: a
    missing-field or empty-field message for a required field that is
    absent, or bound to a falsy value; the deployment message, with
    ['packages'] and ['remotes'] both absent or falsy; for a package
    the loop visits, one of the four package errors or, for one of its
    platforms, one of the four platform errors; for a remote the loop
    visits, one of the two remote errors; "Repository must be an
    object", with ['repository'] bound to something else.  Every
    returned warning is one of: the two name-format warnings, about the
    document's own name; the unknown-type warning of a visited package,
    for a truthy type that is not in the list; the unknown-transport
    warning of a visited remote, for a transport not in the list; the
    recommended-field message of an absent recommended field; one of
    the two repository warnings, for a key the ['repository'] mapping
    lacks. *)
Theorem message_vocabulary (kvs : list (pystr * json)) (errs warns : list pystr) :
  validate_server_json (JDict kvs) = Ok (errs, warns) ->
  Forall (error_message kvs) errs /\ Forall (warning_message kvs) warns.
Proof. exact (validate_messages kvs errs warns). Qed.

(** ** What can be printed *)









(** ** The summary block *)



(** ** Exit status *)

(** C8 on [doc_numeric_description]: the validator returns an empty
    error list and three warnings, the reporter gets as far as the
    version line of the summary, then [5[:60]] raises [TypeError]; the
    exception is not caught and the exit status is 1. *)
Theorem exit_status_after_summary_fault :
  validate_server_json (JDict doc_numeric_description)
  = Ok ([], ["Recommended field missing: license";
             "Recommended field missing: homepage";
             "Recommended field missing: repository"])
  /\ outcome (main (Loaded (JDict doc_numeric_description))) = Uncaught TypeError
  /\ exit_status (main (Loaded (JDict doc_numeric_description))) = 1%Z
  /\ last (stdout (main (Loaded (JDict doc_numeric_description)))) []
     = "  Version: 1.0.0".
Proof. repeat split; vm_compute; reflexivity. Qed.

(** ** What a run prints *)


(** *** The platform-support block *)









(** ** The documents without errors *)

Lemma for_enumerate_no_errors (body : nat -> json -> diag -> result diag)
    (ok : json -> bool) (l : list json) :
  (forall i x, framed (body i x)) ->
  (forall i x c, In x l -> body i x empty_diag = Ok c ->
                 errors c = [] <-> ok x = true) ->
  forall start d,
    for_enumerate body start l empty_diag = Ok d ->
    errors d = [] <-> forallb ok l = true.
Proof.
  intro F. induction l as [|x rest IH]; intros B start d E.
  - cbn in E. inv_ok. cbn. tauto.
  - apply (for_enumerate_cons body F) in E as (c & r & Ec & Er & ->).
    cbn [extend errors forallb]. rewrite andb_true_iff.
    rewrite <- (B start x c (or_introl eq_refl) Ec).
    rewrite <- (IH (fun i y c' Hy => B i y c' (or_intror Hy)) (S start) r Er).
    split.
    + intro H. now apply app_eq_nil in H.
    + intros [-> ->]. reflexivity.
Qed.

Lemma absent_msg_nil (entries : list (pystr * json)) (key msg : pystr) :
  absent_msg entries key msg = [] <-> has_key entries key = true.
Proof.
  unfold absent_msg, has_key. destruct (lookup key entries); split;
    (reflexivity || discriminate).
Qed.

Lemma app_nil_iff {A : Type} (l l' : list A) :
  (l ++ l')%list = [] <-> l = [] /\ l' = [].
Proof.
  split; [apply app_eq_nil | intros [-> ->]; reflexivity].
Qed.

Lemma platform_errors_nil (idx pidx : nat) (platform : list (pystr * json)) :
  platform_errors idx pidx platform = [] <-> valid_platform (JDict platform) = true.
Proof.
  unfold platform_errors, valid_platform.
  rewrite !app_nil_iff, !absent_msg_nil, !andb_true_iff. tauto.
Qed.

Lemma platforms_errors_nil (idx : nat) (platforms : list json) :
  forallb isinstance_dict platforms = true ->
  forall start,
    flat_map (fun px => match snd px with
                        | JDict platform => platform_errors idx (fst px) platform
                        | _ => []
                        end)
      (enumerate_from start platforms) = []
    <-> forallb valid_platform platforms = true.
Proof.
  induction platforms as [|p rest IH]; intros D start; [cbn; tauto|].
  cbn [forallb] in D. apply andb_prop in D as [Dp Dr].
  destruct p as [| | | | | |platform]; try discriminate Dp.
  cbn [enumerate_from flat_map fst snd forallb].
  rewrite app_nil_iff, andb_true_iff, platform_errors_nil, (IH Dr (S start)).
  tauto.
Qed.

Lemma eq_str_mcpb (v : json) : eq_str v "mcpb" = true -> v = JStr "mcpb".
Proof.
  destruct v; try discriminate. cbn. intro E. apply str_eqb_eq in E. now subst.
Qed.

Lemma validate_package_no_errors (i : nat) (pkg : json) (c : diag) :
  typed_package pkg = true ->
  validate_package i pkg empty_diag = Ok c ->
  errors c = [] <-> valid_package pkg = true.
Proof.
  destruct pkg as [| | | | | |entries]; try discriminate. intros T V.
  unfold valid_package, has_truthy.
  destruct (eq_str (get_or_null entries "type") "mcpb") eqn:M.
  - pose proof (eq_str_mcpb _ M) as G.
    assert (L : lookup "type" entries = Some (JStr "mcpb")).
    { unfold get_or_null in G. destruct (lookup "type" entries); [|discriminate G].
      now subst. }
    rewrite (validate_package_mcpb i entries L T) in V. inv_ok. cbn [errors].
    rewrite G. change (truthy (JStr "mcpb")) with true. cbn [andb].
    unfold mcpb_errors. rewrite !app_nil_iff, !absent_msg_nil, !andb_true_iff.
    unfold typed_package, absent_or in T.
    destruct (lookup "platforms" entries) as [p|].
    + destruct p as [| | | | |ps|]; try discriminate T. cbn [list_of] in T.
      destruct ps as [|p ps].
      * split; [intros (_ & _ & H); discriminate H | intros [_ H]; discriminate H].
      * unfold platforms_errors. rewrite (platforms_errors_nil i (p :: ps) T 0).
        tauto.
    + split; [intros (_ & _ & H); discriminate H | intros [_ H]; discriminate H].
  - rewrite (validate_package_plain i entries M) in V. inv_ok. cbn [errors].
    unfold type_errors.
    destruct (truthy (get_or_null entries "type")); cbn [andb]; split;
      (reflexivity || discriminate).
Qed.

Lemma validate_remote_no_errors (i : nat) (remote : json) (c : diag) :
  isinstance_dict remote = true ->
  validate_remote i remote empty_diag = Ok c ->
  errors c = [] <-> valid_remote remote = true.
Proof.
  destruct remote as [| | | | | |entries]; try discriminate. intros _ V.
  rewrite validate_remote_dict in V. inv_ok. cbn [errors].
  unfold remote_errors, valid_remote.
  rewrite app_nil_iff, !absent_msg_nil, andb_true_iff. tauto.
Qed.

Lemma entries_no_errors (kvs : list (pystr * json)) (key : pystr)
    (body : nat -> json -> diag -> result diag) (p ok : json -> bool)
    (h : json) (d : diag) :
  (forall i x, framed (body i x)) ->
  (forall i x c, p x = true -> body i x empty_diag = Ok c ->
                 errors c = [] <-> ok x = true) ->
  absent_or (list_of p) (lookup key kvs) = true ->
  has_deployment (JDict kvs) key = Ok h ->
  validate_entries h (JDict kvs) key body empty_diag = Ok d ->
  truthy h = negb (is_empty (entries_of kvs key))
  /\ (errors d = [] <-> forallb ok (entries_of kvs key) = true).
Proof.
  intros F B T H E.
  pose proof (has_deployment_dict kvs key h H) as Th.
  unfold entries_of, absent_or in *.
  apply validate_entries_inv in E.
  destruct (lookup key kvs) as [v|] eqn:L.
  - destruct v as [| | | | |l|]; try discriminate T. cbn [list_of] in T.
    split; [rewrite Th; now destruct l|].
    destruct E as [[F0 ->]|(Tt & c0 & l0 & G & I & E)].
    + rewrite Th in F0. destruct l; [cbn; tauto | discriminate F0].
    + unfold getitem in G. rewrite L in G. inv_ok. cbn in I. inv_ok.
      apply (for_enumerate_no_errors body ok l0 F) with (start := 0); [|exact E].
      intros i x c Hx. apply B. rewrite forallb_forall in T. now apply T.
  - split; [exact Th|].
    destruct E as [[_ ->]|(Tt & _)]; [cbn; tauto | congruence].
Qed.

Lemma required_errors_nil (kvs : list (pystr * json)) :
  flat_map (required_error kvs) required_fields = []
  <-> forallb (has_truthy kvs) required_fields = true.
Proof.
  unfold required_fields, required_error, has_truthy, get_or_null.
  cbn [flat_map forallb].
  destruct (lookup "name" kvs) as [v1|]; try destruct (truthy v1);
    destruct (lookup "version" kvs) as [v2|]; try destruct (truthy v2);
    destruct (lookup "description" kvs) as [v3|]; try destruct (truthy v3);
    cbn; split; (reflexivity || discriminate).
Qed.

(** X13. For a document of the data model, the returned error list is
    empty exactly when every required field is bound to a truthy value,
    ['packages'] or ['remotes'] has an entry, every package has a
    truthy type and, when it is an MCPB package, a ['uri'], a
    ['sha256'] and at least one platform, each with ['os'], ['arch'],
    ['uri'] and ['sha256'], every remote has an ['endpoint'] and a
    ['transport'], and ['repository'], when present, is a mapping.
    Unknown package types, unknown transports, the name format and the
    recommended fields have no part in it. *)
Theorem no_errors_iff_valid (kvs : list (pystr * json)) (errs warns : list pystr) :
  typed_document kvs = true ->
  validate_server_json (JDict kvs) = Ok (errs, warns) ->
  errs = [] <-> valid_document kvs = true.
Proof.
  intros T V. pose proof T as T'. unfold typed_document in T'.
  apply andb_prop in T' as [T' R]. apply andb_prop in T' as [_ P].
  destruct (validate_anatomy _ _ _ V).
  destruct (entries_no_errors kvs "packages" validate_package typed_package
              valid_package _ _ framed_validate_package
              validate_package_no_errors P packages_flag packages_rule)
    as [Hp Ep].
  destruct (entries_no_errors kvs "remotes" validate_remote isinstance_dict
              valid_remote _ _ framed_validate_remote
              validate_remote_no_errors R remotes_flag remotes_rule)
    as [Hr Er].
  unfold valid_document. rewrite !app_nil_iff, !andb_true_iff.
  rewrite required_errors_nil, Ep, Er.
  assert (D : errors (deployment_rule has_packages has_remotes) = []
              <-> negb (is_empty (entries_of kvs "packages"))
                  || negb (is_empty (entries_of kvs "remotes")) = true).
  { unfold deployment_rule. rewrite <- Hp, <- Hr.
    destruct (truthy has_packages), (truthy has_remotes); cbn; split;
      (reflexivity || discriminate). }
  assert (O : errors (repository_diag kvs) = []
              <-> absent_or isinstance_dict (lookup "repository" kvs) = true).
  { unfold repository_diag, absent_or.
    destruct (lookup "repository" kvs) as [[| | | | | |repo]|]; cbn; split;
      (reflexivity || discriminate). }
  rewrite D, O. tauto.
Qed.

(** ** What the validator returns only for *)

Lemma for_enumerate_each (body : nat -> json -> diag -> result diag)
    (l : list json) :
  forall start d d',
    for_enumerate body start l d = Ok d' ->
    Forall (fun x => exists j d0, raises (body j x d0) = false) l.
Proof.
  induction l as [|x rest IH]; intros start d d' E; [constructor|].
  cbn [for_enumerate] in E.
  destruct (body start x d) as [d1|e] eqn:B; cbn [bind] in E; [|discriminate E].
  constructor; [|eapply IH; exact E].
  exists start, d. now rewrite B.
Qed.

Lemma validate_package_needs_dict (i : nat) (x : json) (d : diag) :
  raises (validate_package i x d) = false -> isinstance_dict x = true.
Proof. destruct x; cbn; congruence. Qed.

(** X14. The validator returns its lists for a mapping only if
    ['name'], when present, is a str and ['packages'], when bound to a
    truthy value, is a list whose entries are all mappings: a package
    list given as a string, a mapping or a number, or holding anything
    but mappings, always ends in an exception. *)
Theorem returns_only_for (kvs : list (pystr * json)) (errs warns : list pystr) :
  validate_server_json (JDict kvs) = Ok (errs, warns) ->
  absent_or is_str (lookup "name" kvs) = true
  /\ (forall v, lookup "packages" kvs = Some v -> truthy v = true ->
                list_of isinstance_dict v = true).
Proof.
  intro V. destruct (validate_anatomy _ _ _ V). split.
  - rewrite name_rule_dict in name_rule.
    destruct (lookup "name" kvs) as [[| | | | name | |]|]; inv_ok; reflexivity.
  - intros v L T.
    pose proof (has_deployment_dict kvs "packages" _ packages_flag) as H.
    rewrite L, T in H.
    apply validate_entries_inv in packages_rule
      as [[F _]|(_ & c & entries & G & I & E)]; [congruence|].
    unfold getitem in G. rewrite L in G. inv_ok.
    apply for_enumerate_each in E.
    assert (D : Forall (fun x => isinstance_dict x = true) entries).
    { eapply Forall_impl; [|exact E]. intros x (j & d0 & R).
      exact (validate_package_needs_dict j x d0 R). }
    destruct c as [| | | |s|items|kv]; try discriminate I; cbn in I; inv_ok.
    + destruct s as [|ch s]; [discriminate T|]. cbn in D. inversion D as [|? ? Hd _].
      discriminate Hd.
    + cbn. apply forallb_forall. now apply Forall_forall.
    + destruct kv as [|[k w] kv]; [discriminate T|]. cbn in D.
      inversion D as [|? ? Hd _]. discriminate Hd.
Qed.

End Script.

(** * The statements on sample documents

    Each statement that has a hypothesis, applied to a document that
    satisfies it; the table of printable characters is
    [latin1_printable]. *)

Lemma name_format_warnings_witness :
  filter is_name_line
    ["Name should use io.github.* or com.* namespace: acme-tool";
     "Name should include a slash separator (namespace/name): acme-tool";
     "Recommended field missing: license";
     "Recommended field missing: homepage";
     "Recommended field missing: repository"]
  = [namespace_warning "acme-tool"; slash_warning "acme-tool"].
Proof.
  apply (name_format_warnings latin1_printable doc_acme_tool []).
  - vm_compute. reflexivity.
  - reflexivity.
Defined.

Lemma mcpb_without_sha256_and_platforms_witness :
  filter (refers_package 0)
    ["Package 0: MCPB package missing 'sha256' field";
     "Package 0: MCPB package missing 'platforms' array"]
  = [package_msg 0 "MCPB package missing 'sha256' field";
     package_msg 0 "MCPB package missing 'platforms' array"]
  /\ forall pidx text,
       ~ In (platform_msg 0 pidx text)
           ["Package 0: MCPB package missing 'sha256' field";
            "Package 0: MCPB package missing 'platforms' array"].
Proof.
  apply (mcpb_without_sha256_and_platforms latin1_printable doc_mcpb_bare _
           ["Recommended field missing: license";
            "Recommended field missing: homepage";
            "Recommended field missing: repository"]
           [JDict [("type", JStr "mcpb"); ("uri", JStr "https://acme.dev/tool.mcpb");
                   ("platforms", JList [])]]
           0
           [("type", JStr "mcpb"); ("uri", JStr "https://acme.dev/tool.mcpb");
            ("platforms", JList [])]).
  - vm_compute. reflexivity.
  - reflexivity.
  - reflexivity.
  - reflexivity.
  - simpl. discriminate.
  - reflexivity.
  - reflexivity.
Defined.

Lemma graphql_remote_witness :
  filter (refers_remote 0)
    ["Remote 0: Unknown transport 'graphql'";
     "Recommended field missing: license";
     "Recommended field missing: homepage";
     "Recommended field missing: repository"]
  = [remote_msg 0 "Unknown transport 'graphql'"]
  /\ filter (refers_remote 0) [] = [].
Proof.
  apply (graphql_remote latin1_printable doc_graphql _ _
           [JDict [("endpoint", JStr "https://acme.dev/mcp");
                   ("transport", JStr "graphql")]]
           0
           [("endpoint", JStr "https://acme.dev/mcp"); ("transport", JStr "graphql")]).
  - vm_compute. reflexivity.
  - reflexivity.
  - reflexivity.
  - simpl. discriminate.
  - reflexivity.
Defined.

Lemma falsy_transport_and_type_witness :
  (filter (refers_remote 0)
     ["Remote 0: Unknown transport 'None'";
      "Recommended field missing: license";
      "Recommended field missing: homepage";
      "Recommended field missing: repository"]
   = [remote_msg 0 ("Unknown transport '" ++ str latin1_printable JNull ++ "'")]
   /\ ~ In (remote_msg 0 "Missing 'transport' field")
          ["Package 0: Missing 'type' field"])
  /\ (filter (refers_package 0) ["Package 0: Missing 'type' field"]
      = [package_msg 0 "Missing 'type' field"]
      /\ filter (refers_package 0)
           ["Remote 0: Unknown transport 'None'";
            "Recommended field missing: license";
            "Recommended field missing: homepage";
            "Recommended field missing: repository"]
         = []).
Proof.
  assert (V : validate_server_json latin1_printable (JDict doc_falsy_tags)
              = Ok (["Package 0: Missing 'type' field"],
                    ["Remote 0: Unknown transport 'None'";
                     "Recommended field missing: license";
                     "Recommended field missing: homepage";
                     "Recommended field missing: repository"]))
    by (vm_compute; reflexivity).
  split.
  - apply (proj1 (falsy_transport_and_type latin1_printable doc_falsy_tags _ _ V)
             [JDict [("endpoint", JStr "https://acme.dev/mcp"); ("transport", JNull)]]
             0
             [("endpoint", JStr "https://acme.dev/mcp"); ("transport", JNull)]
             JNull); reflexivity.
  - apply (proj2 (falsy_transport_and_type latin1_printable doc_falsy_tags _ _ V)
             [JDict [("type", JStr [])]]
             0
             [("type", JStr [])]
             (JStr [])); reflexivity.
Defined.

Lemma falsy_deployment_as_absent_witness :
  validate_server_json latin1_printable (JDict doc_zero_packages)
  = validate_server_json latin1_printable
      (JDict (remove_key "packages" doc_zero_packages))
  /\ has_deployment (JDict doc_zero_packages) "packages" = Ok (JInt 0)
  /\ (forall body d,
         validate_entries (JInt 0) (JDict doc_zero_packages) "packages" body d = Ok d).
Proof.
  apply (falsy_deployment_as_absent latin1_printable doc_zero_packages "packages"
           (JInt 0)).
  - left. reflexivity.
  - reflexivity.
  - reflexivity.
Defined.



Lemma recommended_field_warnings_witness :
  In (missing_recommended "license")
    ["Package 1: Unknown package type 'cargo'"]
  <-> lookup "license" doc_two_platforms = None.
Proof.
  apply (recommended_field_warnings latin1_printable doc_two_platforms
           ["Package 0, Platform 1: Missing 'arch' field";
            "Package 0, Platform 1: Missing 'sha256' field";
            "Remote 0: Missing 'endpoint' field";
            "Repository must be an object"]).
  - vm_compute. reflexivity.
  - simpl. auto.
Defined.

Lemma repository_shape_witness :
  In "Repository must be an object"
    ["Package 0, Platform 1: Missing 'arch' field";
     "Package 0, Platform 1: Missing 'sha256' field";
     "Remote 0: Missing 'endpoint' field";
     "Repository must be an object"].
Proof.
  apply (proj1 (repository_shape latin1_printable doc_two_platforms _
                  ["Package 1: Unknown package type 'cargo'"]
                  ltac:(vm_compute; reflexivity))).
  exists (JStr "https://acme.dev/repo"). split; reflexivity.
Defined.

Lemma remote_rule_witness :
  filter (refers_remote 0)
    ["Package 0, Platform 1: Missing 'arch' field";
     "Package 0, Platform 1: Missing 'sha256' field";
     "Remote 0: Missing 'endpoint' field";
     "Repository must be an object"]
  = remote_errors 0 [("transport", JStr "sse")]
  /\ filter (refers_remote 0) ["Package 1: Unknown package type 'cargo'"]
     = remote_warnings latin1_printable 0 [("transport", JStr "sse")].
Proof.
  apply (remote_rule latin1_printable doc_two_platforms _ _
           [JDict [("transport", JStr "sse")]]).
  - vm_compute. reflexivity.
  - reflexivity.
  - reflexivity.
Defined.

Lemma package_type_rule_witness :
  filter (refers_package 1)
    ["Package 0, Platform 1: Missing 'arch' field";
     "Package 0, Platform 1: Missing 'sha256' field";
     "Remote 0: Missing 'endpoint' field";
     "Repository must be an object"]
  = type_errors 1 (get_or_null [("type", JStr "cargo")] "type")
  /\ filter (refers_package 1) ["Package 1: Unknown package type 'cargo'"]
     = type_warnings latin1_printable 1 (get_or_null [("type", JStr "cargo")] "type").
Proof.
  assert (P : lookup "packages" doc_two_platforms
              = Some (JList [JDict [("type", JStr "mcpb");
                                    ("uri", JStr "https://acme.dev/tool.mcpb");
                                    ("sha256", JStr "00ff");
                                    ("platforms",
                                     JList [JDict [("os", JStr "linux");
                                                   ("arch", JStr "x64");
                                                   ("uri", JStr "u");
                                                   ("sha256", JStr "s")];
                                            JDict [("os", JStr "darwin");
                                                   ("uri", JStr "u")]])];
                             JDict [("type", JStr "cargo")]]))
    by reflexivity.
  apply (package_type_rule latin1_printable doc_two_platforms _ _ _ 1
           [("type", JStr "cargo")]
           ltac:(vm_compute; reflexivity) P); reflexivity.
Defined.

Lemma mcpb_rule_witness :
  filter (refers_package 0)
    ["Package 0, Platform 1: Missing 'arch' field";
     "Package 0, Platform 1: Missing 'sha256' field";
     "Remote 0: Missing 'endpoint' field";
     "Repository must be an object"]
  = ["Package 0, Platform 1: Missing 'arch' field";
     "Package 0, Platform 1: Missing 'sha256' field"]
  /\ filter (refers_package 0) ["Package 1: Unknown package type 'cargo'"] = [].
Proof.
  assert (P : lookup "packages" doc_two_platforms
              = Some (JList [JDict [("type", JStr "mcpb");
                                    ("uri", JStr "https://acme.dev/tool.mcpb");
                                    ("sha256", JStr "00ff");
                                    ("platforms",
                                     JList [JDict [("os", JStr "linux");
                                                   ("arch", JStr "x64");
                                                   ("uri", JStr "u");
                                                   ("sha256", JStr "s")];
                                            JDict [("os", JStr "darwin");
                                                   ("uri", JStr "u")]])];
                             JDict [("type", JStr "cargo")]]))
    by reflexivity.
  exact (mcpb_rule latin1_printable doc_two_platforms _ _ _ 0 _
           ltac:(vm_compute; reflexivity) P eq_refl eq_refl eq_refl).
Defined.

Lemma non_mapping_document_witness :
  exists e,
    validate_server_json latin1_printable (JList [JStr "name"]) = Raise e
    /\ main latin1_printable (Loaded (JList [JStr "name"]))
       = {| stdout := [banner]; outcome := Uncaught e |}
    /\ exit_status (main latin1_printable (Loaded (JList [JStr "name"]))) = 1%Z.
Proof.
  apply (non_mapping_document latin1_printable (JList [JStr "name"])). reflexivity.
Defined.

Lemma validator_returns_on_data_model_witness :
  exists errs warns,
    validate_server_json latin1_printable (JDict doc_two_platforms) = Ok (errs, warns).
Proof.
  apply (validator_returns_on_data_model latin1_printable doc_two_platforms).
  reflexivity.
Defined.

Lemma unknown_key_ignored_witness :
  validate_server_json latin1_printable (JDict (("title", JInt 7) :: doc_npm_tool))
  = validate_server_json latin1_printable
      (JDict (remove_key "title" (("title", JInt 7) :: doc_npm_tool))).
Proof.
  apply (unknown_key_ignored latin1_printable (("title", JInt 7) :: doc_npm_tool)
           "title").
  simpl. intuition discriminate.
Defined.

Lemma message_vocabulary_witness :
  Forall (error_message doc_two_platforms)
    ["Package 0, Platform 1: Missing 'arch' field";
     "Package 0, Platform 1: Missing 'sha256' field";
     "Remote 0: Missing 'endpoint' field";
     "Repository must be an object"]
  /\ Forall (warning_message latin1_printable doc_two_platforms)
       ["Package 1: Unknown package type 'cargo'"].
Proof.
  apply (message_vocabulary latin1_printable doc_two_platforms).
  vm_compute. reflexivity.
Defined.




Lemma no_errors_iff_valid_witness :
  @nil pystr = [] <-> valid_document doc_valid = true.
Proof.
  apply (no_errors_iff_valid latin1_printable doc_valid [] []).
  - reflexivity.
  - vm_compute. reflexivity.
Defined.

Lemma returns_only_for_witness :
  absent_or is_str (lookup "name" doc_npm_tool) = true
  /\ (forall v, lookup "packages" doc_npm_tool = Some v -> truthy v = true ->
                list_of isinstance_dict v = true).
Proof.
  apply (returns_only_for latin1_printable doc_npm_tool []
           ["Recommended field missing: license";
            "Recommended field missing: homepage";
            "Recommended field missing: repository"]).
  vm_compute. reflexivity.
Defined.
